(** * Replication analysis of outbrain/orchestrator: go/inst/analysis_dao.go

    A shallow embedding of the four operations of [analysis_dao.go]
    ([GetReplicationAnalysis], [AuditInstanceAnalysisInChangelog],
    [ExpireInstanceAnalysisChangelog], [ReadReplicationAnalysisChangelog])
    together with the MySQL statements they issue, and the properties the
    specification states about them. *)

From stdpp Require Import gmap strings list fin_maps sorting pretty.
From Stdlib Require Import ZArith NArith Lia.

Local Open Scope string_scope.

(** ** Data model *)

(** [InstanceKey{Hostname string; Port int}]. *)
Record InstanceKey := { Hostname : string; Port : Z }.

#[global] Instance InstanceKey_eq_dec : EqDecision InstanceKey.
Proof. solve_decision. Defined.

#[global] Instance InstanceKey_countable : Countable InstanceKey.
Proof.
  apply (inj_countable' (fun k => (Hostname k, Port k))
                        (fun p => {| Hostname := p.1; Port := p.2 |})).
  by intros [].
Defined.

(** Modelled from the spec: the [AnalysisCode] constants are declared in
    go/inst/analysis.go, which is not part of the source at hand; these are
    the codes of the fixed taxonomy of section 4.2, each of which the rule
    chain of [GetReplicationAnalysis] names. *)
Inductive AnalysisCode :=
| NoProblem
| DeadMasterWithoutSlaves
| DeadMaster
| DeadMasterAndSlaves
| DeadMasterAndSomeSlaves
| UnreachableMaster
| MasterSingleSlaveNotReplicating
| MasterSingleSlaveDead
| AllMasterSlavesNotReplicating
| AllMasterSlavesNotReplicatingOrDead
| DeadCoMaster
| DeadCoMasterAndSomeSlaves
| UnreachableCoMaster
| AllCoMasterSlavesNotReplicating
| DeadIntermediateMasterWithSingleSlaveFailingToConnect
| DeadIntermediateMasterWithSingleSlave
| DeadIntermediateMaster
| DeadIntermediateMasterAndSomeSlaves
| UnreachableIntermediateMaster
| AllIntermediateMasterSlavesFailingToConnectOrDead
| AllIntermediateMasterSlavesNotReplicating
| BinlogServerFailingToConnectToMaster
| FirstTierSlaveFailingToConnectToMaster.

#[global] Instance AnalysisCode_eq_dec : EqDecision AnalysisCode.
Proof. solve_decision. Defined.

(** [ClusterDetails]: the two names the row callback fills in. *)
Record ClusterInfo := { ClusterName : string; ClusterAlias : string }.

#[global] Instance ClusterInfo_eq_dec : EqDecision ClusterInfo.
Proof. solve_decision. Defined.

(** Modelled from the spec: the struct [ReplicationAnalysis] is declared in
    go/inst/analysis.go; its fields are the ones the row callback of
    [GetReplicationAnalysis] assigns (section 3 of the specification).  Go's
    [uint] counters are read off decimal columns and only ever compared, so
    they are natural numbers [N] here. *)
Record ReplicationAnalysis := {
  AnalyzedInstanceKey : InstanceKey;
  AnalyzedInstanceMasterKey : InstanceKey;
  ClusterDetails : ClusterInfo;
  IsMaster : bool;
  IsCoMaster : bool;
  LastCheckValid : bool;
  CountSlaves : N;
  CountValidSlaves : N;
  CountValidReplicatingSlaves : N;
  CountSlavesFailingToConnectToMaster : N;
  ReplicationDepth : N;
  SlaveHosts : gset InstanceKey;
  IsFailingToConnectToMaster : bool;
  Analysis : AnalysisCode;
  Description : string;
  IsDowntimed : bool;
  DowntimeEndTimestamp : string;
  DowntimeRemainingSeconds : Z;
  IsBinlogServer : bool;
  OracleGTIDImmediateTopology : bool;
  PseudoGTIDImmediateTopology : bool;
  MariaDBGTIDImmediateTopology : bool;
  BinlogServerImmediateTopology : bool
}.

#[global] Instance ReplicationAnalysis_eq_dec : EqDecision ReplicationAnalysis.
Proof. solve_decision. Defined.

(** [a.Analysis = c; a.Description = d]. *)
Definition set_analysis (a : ReplicationAnalysis) (c : AnalysisCode) (d : string)
  : ReplicationAnalysis :=
  {| AnalyzedInstanceKey := AnalyzedInstanceKey a;
     AnalyzedInstanceMasterKey := AnalyzedInstanceMasterKey a;
     ClusterDetails := ClusterDetails a;
     IsMaster := IsMaster a;
     IsCoMaster := IsCoMaster a;
     LastCheckValid := LastCheckValid a;
     CountSlaves := CountSlaves a;
     CountValidSlaves := CountValidSlaves a;
     CountValidReplicatingSlaves := CountValidReplicatingSlaves a;
     CountSlavesFailingToConnectToMaster := CountSlavesFailingToConnectToMaster a;
     ReplicationDepth := ReplicationDepth a;
     SlaveHosts := SlaveHosts a;
     IsFailingToConnectToMaster := IsFailingToConnectToMaster a;
     Analysis := c;
     Description := d;
     IsDowntimed := IsDowntimed a;
     DowntimeEndTimestamp := DowntimeEndTimestamp a;
     DowntimeRemainingSeconds := DowntimeRemainingSeconds a;
     IsBinlogServer := IsBinlogServer a;
     OracleGTIDImmediateTopology := OracleGTIDImmediateTopology a;
     PseudoGTIDImmediateTopology := PseudoGTIDImmediateTopology a;
     MariaDBGTIDImmediateTopology := MariaDBGTIDImmediateTopology a;
     BinlogServerImmediateTopology := BinlogServerImmediateTopology a |}.

(** ** The rule chain (analysis_dao.go, lines 174-267)

    The [if ... else if ...] chain of the row callback, guard for guard and
    in the order of the source.  [a] comes in with [Analysis = NoProblem]
    and an empty [Description], and leaves unchanged when no guard holds. *)
Section Classifier.
Local Open Scope N_scope.

Definition classify (a : ReplicationAnalysis) : ReplicationAnalysis :=
  if IsMaster a && negb (LastCheckValid a) && (CountSlaves a =? 0) then
    set_analysis a DeadMasterWithoutSlaves
      "Master cannot be reached by orchestrator and has no slave"
  else if IsMaster a && negb (LastCheckValid a)
          && (CountValidSlaves a =? CountSlaves a)
          && (CountValidReplicatingSlaves a =? 0) then
    set_analysis a DeadMaster
      "Master cannot be reached by orchestrator and none of its slaves is replicating"
  else if IsMaster a && negb (LastCheckValid a) && (0 <? CountSlaves a)
          && (CountValidSlaves a =? 0) && (CountValidReplicatingSlaves a =? 0) then
    set_analysis a DeadMasterAndSlaves
      "Master cannot be reached by orchestrator and none of its slaves is replicating"
  else if IsMaster a && negb (LastCheckValid a)
          && (CountValidSlaves a <? CountSlaves a) && (0 <? CountValidSlaves a)
          && (CountValidReplicatingSlaves a =? 0) then
    set_analysis a DeadMasterAndSomeSlaves
      "Master cannot be reached by orchestrator; some of its slaves are unreachable and none of its reachable slaves is replicating"
  else if IsMaster a && negb (LastCheckValid a) && (0 <? CountValidSlaves a)
          && (0 <? CountValidReplicatingSlaves a) then
    set_analysis a UnreachableMaster
      "Master cannot be reached by orchestrator but it has replicating slaves; possibly a network/host issue"
  else if IsMaster a && LastCheckValid a && (CountSlaves a =? 1)
          && (CountValidSlaves a =? CountSlaves a)
          && (CountValidReplicatingSlaves a =? 0) then
    set_analysis a MasterSingleSlaveNotReplicating
      "Master is reachable but its single slave is not replicating"
  else if IsMaster a && LastCheckValid a && (CountSlaves a =? 1)
          && (CountValidSlaves a =? 0) then
    set_analysis a MasterSingleSlaveDead
      "Master is reachable but its single slave is dead"
  else if IsMaster a && LastCheckValid a && (1 <? CountSlaves a)
          && (CountValidSlaves a =? CountSlaves a)
          && (CountValidReplicatingSlaves a =? 0) then
    set_analysis a AllMasterSlavesNotReplicating
      "Master is reachable but none of its slaves is replicating"
  else if IsMaster a && LastCheckValid a && (1 <? CountSlaves a)
          && (CountValidSlaves a <? CountSlaves a) && (0 <? CountValidSlaves a)
          && (CountValidReplicatingSlaves a =? 0) then
    set_analysis a AllMasterSlavesNotReplicatingOrDead
      "Master is reachable but none of its slaves is replicating"
  else (* co-master *)
  if IsCoMaster a && negb (LastCheckValid a) && (0 <? CountSlaves a)
          && (CountValidSlaves a =? CountSlaves a)
          && (CountValidReplicatingSlaves a =? 0) then
    set_analysis a DeadCoMaster
      "Co-master cannot be reached by orchestrator and none of its slaves is replicating"
  else if IsCoMaster a && negb (LastCheckValid a) && (0 <? CountSlaves a)
          && (CountValidSlaves a <? CountSlaves a) && (0 <? CountValidSlaves a)
          && (CountValidReplicatingSlaves a =? 0) then
    set_analysis a DeadCoMasterAndSomeSlaves
      "Co-master cannot be reached by orchestrator; some of its slaves are unreachable and none of its reachable slaves is replicating"
  else if IsCoMaster a && negb (LastCheckValid a) && (0 <? CountValidSlaves a)
          && (0 <? CountValidReplicatingSlaves a) then
    set_analysis a UnreachableCoMaster
      "Co-master cannot be reached by orchestrator but it has replicating slaves; possibly a network/host issue"
  else if IsCoMaster a && LastCheckValid a && (0 <? CountSlaves a)
          && (CountValidReplicatingSlaves a =? 0) then
    set_analysis a AllCoMasterSlavesNotReplicating
      "Co-master is reachable but none of its slaves is replicating"
  else (* intermediate-master *)
  if negb (IsMaster a) && negb (LastCheckValid a) && (CountSlaves a =? 1)
          && (CountValidSlaves a =? CountSlaves a)
          && (CountSlavesFailingToConnectToMaster a =? CountSlaves a)
          && (CountValidReplicatingSlaves a =? 0) then
    set_analysis a DeadIntermediateMasterWithSingleSlaveFailingToConnect
      "Intermediate master cannot be reached by orchestrator and its (single) slave is failing to connect"
  else (* intermediate-master *)
  if negb (IsMaster a) && negb (LastCheckValid a) && (CountSlaves a =? 1)
          && (CountValidSlaves a =? CountSlaves a)
          && (CountValidReplicatingSlaves a =? 0) then
    set_analysis a DeadIntermediateMasterWithSingleSlave
      "Intermediate master cannot be reached by orchestrator and its (single) slave is not replicating"
  else (* intermediate-master *)
  if negb (IsMaster a) && negb (LastCheckValid a) && (1 <? CountSlaves a)
          && (CountValidSlaves a =? CountSlaves a)
          && (CountValidReplicatingSlaves a =? 0) then
    set_analysis a DeadIntermediateMaster
      "Intermediate master cannot be reached by orchestrator and none of its slaves is replicating"
  else if negb (IsMaster a) && negb (LastCheckValid a)
          && (CountValidSlaves a <? CountSlaves a) && (0 <? CountValidSlaves a)
          && (CountValidReplicatingSlaves a =? 0) then
    set_analysis a DeadIntermediateMasterAndSomeSlaves
      "Intermediate master cannot be reached by orchestrator; some of its slaves are unreachable and none of its reachable slaves is replicating"
  else if negb (IsMaster a) && negb (LastCheckValid a) && (0 <? CountValidSlaves a)
          && (0 <? CountValidReplicatingSlaves a) then
    set_analysis a UnreachableIntermediateMaster
      "Intermediate master cannot be reached by orchestrator but it has replicating slaves; possibly a network/host issue"
  else if negb (IsMaster a) && LastCheckValid a && (1 <? CountSlaves a)
          && (CountValidReplicatingSlaves a =? 0)
          && (0 <? CountSlavesFailingToConnectToMaster a)
          && (CountSlavesFailingToConnectToMaster a =? CountValidSlaves a) then
    set_analysis a AllIntermediateMasterSlavesFailingToConnectOrDead
      "Intermediate master is reachable but all of its slaves are failing to connect"
  else if negb (IsMaster a) && LastCheckValid a && (0 <? CountSlaves a)
          && (CountValidReplicatingSlaves a =? 0) then
    set_analysis a AllIntermediateMasterSlavesNotReplicating
      "Intermediate master is reachable but none of its slaves is replicating"
  else if IsBinlogServer a && IsFailingToConnectToMaster a then
    set_analysis a BinlogServerFailingToConnectToMaster
      "Binlog server is unable to connect to its master"
  else if (ReplicationDepth a =? 1) && IsFailingToConnectToMaster a then
    set_analysis a FirstTierSlaveFailingToConnectToMaster
      "1st tier slave (directly replicating from topology master) is unable to connect to the master"
  else a.

End Classifier.

(** ** SQL values

    MySQL's three-valued logic, as far as the statements of this file use
    it: a nullable boolean is an [option bool], a nullable number an
    [option Z].  Timestamps are seconds on the integer line. *)
Module sql.

Definition and (a b : option bool) : option bool :=
  match a, b with
  | Some false, _ | _, Some false => Some false
  | Some true, Some true => Some true
  | _, _ => None
  end.

Definition or (a b : option bool) : option bool :=
  match a, b with
  | Some true, _ | _, Some true => Some true
  | Some false, Some false => Some false
  | _, _ => None
  end.

(** [x <= y] *)
Definition le (x y : option Z) : option bool :=
  match x, y with
  | Some x, Some y => Some (x <=? y)%Z
  | _, _ => None
  end.

(** [x < y] *)
Definition lt (x y : option Z) : option bool :=
  match x, y with
  | Some x, Some y => Some (x <? y)%Z
  | _, _ => None
  end.

(** [b IS TRUE], [b IS FALSE], [x IS NULL] *)
Definition is_true (b : option bool) : bool :=
  match b with Some true => true | _ => false end.
Definition is_false (b : option bool) : bool :=
  match b with Some false => true | _ => false end.
Definition is_null {A} (x : option A) : bool :=
  match x with None => true | Some _ => false end.

(** A boolean used as a number: TRUE is 1, FALSE is 0. *)
Definition num (b : option bool) : option N :=
  (fun b : bool => if b then 1%N else 0%N) <$> b.

(** [SUM(e)] over the rows of a group: NULLs are skipped, and the sum of no
    value at all is NULL. *)
Fixpoint sum (vs : list (option N)) : option N :=
  match vs with
  | [] => None
  | None :: vs => sum vs
  | Some v :: vs => Some (v + default 0%N (sum vs))%N
  end.

(** [COUNT(e)]: the number of rows where [e] is not NULL. *)
Definition count {A} (vs : list (option A)) : N :=
  N.of_nat (length (filter (fun v => is_Some v) vs)).

(** [IFNULL(x, d)] *)
Definition ifnull {A} (x : option A) (d : A) : A := default d x.

(** [GROUP_CONCAT(e)]: the non-NULL values joined by commas, NULL when
    there is none. *)
Definition group_concat (vs : list (option string)) : option string :=
  match omap id vs with
  | [] => None
  | s :: ss => Some (foldl (fun acc t => acc ++ "," ++ t) s ss)
  end.

End sql.

(** ** What the code takes from outside

    Functions of Go's standard library, of MySQL and of files of the
    repository that are not at hand; the development is parametric in
    them. *)
Record Externals := {
  (** Go's [regexp.Compile]: [None] when the pattern is not a regular
      expression, else the method [MatchString] of the compiled expression. *)
  regexp_Compile : string -> option (string -> bool);
  (** MySQL's [s RLIKE 'error (connecting|reconnecting) to master']. *)
  rlike_error_connecting_to_master : string -> bool;
  (** MySQL's rendering of a timestamp as text. *)
  timestamp_text : Z -> string;
  (** [InstanceKeyMap.ReadCommaDelimitedList] of go/inst/instance_key_map.go. *)
  ReadCommaDelimitedList : string -> gset InstanceKey
}.

(** [config.Config], the values this file reads. *)
Record Configuration := {
  ReduceReplicationAnalysisCount : bool;
  InstancePollSeconds : N;
  RecoveryIgnoreHostnameFilters : list string;
  UnseenInstanceForgetHours : N
}.

(** ** The tables *)

(** A row of [database_instance], without its primary key (hostname, port),
    which is the key of the map that holds the table. *)
Module database_instance.
Record row := {
  server_id : N;
  master_host : string;
  master_port : Z;
  cluster_name : string;
  last_checked : Z;
  last_attempted_check : Z;
  last_seen : option Z;
  slave_io_running : bool;
  slave_sql_running : bool;
  last_io_error : string;
  is_co_master : bool;
  replication_depth : N;
  binlog_server : bool;
  pseudo_gtid : bool;
  supports_oracle_gtid : bool;
  oracle_gtid : bool;
  mariadb_gtid : bool
}.
End database_instance.

(** A row of [database_instance_downtime], primary key (hostname, port). *)
Module database_instance_downtime.
Record row := { downtime_active : bool; end_timestamp : Z }.
End database_instance_downtime.

(** A row of [database_instance_maintenance]. *)
Module database_instance_maintenance.
Record row := { hostname : string; port : Z; maintenance_active : bool }.
End database_instance_maintenance.

(** A row of [database_instance_last_analysis], unique key (hostname, port). *)
Record LastAnalysis := { analysis : AnalysisCode; analysis_timestamp : Z }.

#[global] Instance LastAnalysis_eq_dec : EqDecision LastAnalysis.
Proof. solve_decision. Defined.

(** A row of [database_instance_analysis_changelog]; the table is the list
    of its rows by increasing [changelog_id], the auto-increment key. *)
Record ChangelogEntry := {
  changelog_key : InstanceKey;
  changelog_timestamp : Z;
  changelog_analysis : AnalysisCode
}.

#[global] Instance ChangelogEntry_eq_dec : EqDecision ChangelogEntry.
Proof. solve_decision. Defined.

(** The observation store the poller maintains; this file only reads it.
    Tables with a primary key are maps from that key. *)
Record Observations := {
  instances : gmap InstanceKey database_instance.row;
  hostname_resolve : gmap string string;
  maintenance : list database_instance_maintenance.row;
  downtime : gmap InstanceKey database_instance_downtime.row;
  cluster_alias : gmap string string
}.

Definition error := string.

(** A storage failure waiting to happen: the statement it hits fails with
    [fault_error]; a query has handed [fault_after] rows to its callback by
    then, an exec has changed nothing. *)
Record Fault := { fault_error : error; fault_after : nat }.

(** The backend database and its surroundings: the tables, the clock that
    [now()] reads, the outcome of the statements to come ([None], or no
    entry at all, is a success) and the lines [log.Errore] has written. *)
Record World := {
  observed : Observations;
  last_analysis : gmap InstanceKey LastAnalysis;
  analysis_changelog : list ChangelogEntry;
  now : Z;
  faults : list (option Fault);
  logged : list error
}.

Definition set_last_analysis (w : World) (t : gmap InstanceKey LastAnalysis) : World :=
  {| observed := observed w; last_analysis := t;
     analysis_changelog := analysis_changelog w;
     now := now w; faults := faults w; logged := logged w |}.

Definition set_analysis_changelog (w : World) (l : list ChangelogEntry) : World :=
  {| observed := observed w; last_analysis := last_analysis w;
     analysis_changelog := l;
     now := now w; faults := faults w; logged := logged w |}.

Definition set_faults (w : World) (fs : list (option Fault)) : World :=
  {| observed := observed w; last_analysis := last_analysis w;
     analysis_changelog := analysis_changelog w;
     now := now w; faults := fs; logged := logged w |}.

(** The next statement meets the head of the schedule. *)
Definition next_fault (w : World) : option Fault * World :=
  match faults w with
  | [] => (None, w)
  | f :: fs => (f, set_faults w fs)
  end.

(** [log.Errore(err)]: writes [err] down unless it is [nil], and returns it. *)
Definition log_Errore (err : option error) (w : World) : option error * World :=
  match err with
  | None => (None, w)
  | Some e =>
      (Some e,
       {| observed := observed w; last_analysis := last_analysis w;
          analysis_changelog := analysis_changelog w;
          now := now w; faults := faults w; logged := logged w ++ [e] |})
  end.

(** ** The database layer

    Modelled from the spec: [db.QueryOrchestratorRowsMap] and
    [db.ExecOrchestrator] live in go/db, which is not at hand.  Section 7
    has a storage failure come back as an explicit error, with what was
    produced until then left in place. *)

(** [rows] is the result set of the query; each row goes through [on_row],
    in order, until the rows or the storage give out. *)
Definition QueryOrchestratorRowsMap {R S : Type} (rows : list R)
    (on_row : R -> S * World -> S * World) (s : S) (w : World)
  : option error * (S * World) :=
  let '(f, w) := next_fault w in
  match f with
  | None => (None, foldl (fun acc m => on_row m acc) (s, w) rows)
  | Some f =>
      (Some (fault_error f),
       foldl (fun acc m => on_row m acc) (s, w) (take (fault_after f) rows))
  end.

(** The result of an exec: [sqlResult.RowsAffected()]; the MySQL driver
    never fails to tell the number. *)
Record sqlResult := { RowsAffected : Z * option error }.

(** [stmt] is the effect of the statement on the tables, with the number of
    rows MySQL reports as affected. *)
Definition ExecOrchestrator (stmt : World -> Z * World) (w : World)
  : (sqlResult * option error) * World :=
  let '(f, w) := next_fault w in
  match f with
  | None =>
      let '(n, w) := stmt w in
      ({| RowsAffected := (n, None) |}, None, w)
  | Some f => ({| RowsAffected := (0%Z, None) |}, Some (fault_error f), w)
  end.

(** ** The analysis query (analysis_dao.go, lines 47-140) *)

(** A row of the result set: the columns of the SELECT list.  A column that
    can be NULL is an option; the keys the callback reads are the field
    names. *)
Module RowMap.
Record t := {
  hostname : string;
  port : Z;
  master_host : string;
  master_port : Z;
  cluster_name : string;
  cluster_alias : string;
  is_last_check_valid : bool;
  is_master : bool;
  is_co_master : bool;
  is_cluster_master : bool;
  count_slaves : N;
  count_valid_slaves : N;
  count_valid_replicating_slaves : N;
  count_slaves_failing_to_connect_to_master : N;
  replication_depth : N;
  slave_hosts : option string;
  is_failing_to_connect_to_master : bool;
  is_downtimed : bool;
  downtime_end_timestamp : string;
  downtime_remaining_seconds : Z;
  is_binlog_server : bool;
  is_pseudo_gtid : bool;
  supports_oracle_gtid : bool;
  count_oracle_gtid_slaves : option N;
  count_binlog_server_slaves : option N;
  is_mariadb_gtid : bool
}.

(** [m.GetUint(key)], [m.GetString(key)]: a NULL reads as 0, as "". *)
Definition GetUint (v : option N) : N := default 0%N v.
Definition GetString (v : option string) : string := default "" v.
End RowMap.

(** A joined row of a group, as far as it varies within the group: the
    [slave_instance] side of the LEFT JOIN, NULL throughout when the master
    has no slave. *)
Definition SlaveSide := option (InstanceKey * database_instance.row).

Section Query.
Context (ext : Externals) (cfg : Configuration).

Import database_instance.

(** A column of [slave_instance]. *)
Definition slave_col {A} (f : row -> A) (s : SlaveSide) : option A :=
  (fun ks => f ks.2) <$> s.

(** [slave_instance.last_checked <= slave_instance.last_seen] *)
Definition slave_valid (s : SlaveSide) : option bool :=
  sql.le (slave_col last_checked s) (s ≫= fun ks => last_seen ks.2).

(** [... AND slave_io_running != 0 AND slave_sql_running != 0] *)
Definition slave_valid_replicating (s : SlaveSide) : option bool :=
  sql.and (sql.and (slave_valid s) (slave_col slave_io_running s))
          (slave_col slave_sql_running s).

(** [... AND slave_io_running = 0 AND last_io_error RLIKE '...'
     AND slave_sql_running = 1] *)
Definition slave_failing_to_connect (s : SlaveSide) : option bool :=
  sql.and
    (sql.and
       (sql.and (slave_valid s) (negb <$> slave_col slave_io_running s))
       (slave_col (fun r => rlike_error_connecting_to_master ext (last_io_error r)) s))
    (slave_col slave_sql_running s).

(** The rows [master_instance] is joined to: the instances whose master
    is it, by its resolved hostname when it has one; or a single
    all-NULL slave side. *)
Definition slaves_of (o : Observations) (k : InstanceKey) : list SlaveSide :=
  let host := default (Hostname k) (hostname_resolve o !! Hostname k) in
  match filter (fun ks : InstanceKey * row =>
                  master_host ks.2 = host /\ master_port ks.2 = Port k)
               (map_to_list (instances o)) with
  | [] => [None]
  | l => Some <$> l
  end.

(** The active maintenance rows joined to [master_instance]; the WHERE
    clause keeps a master that has none. *)
Definition in_maintenance (o : Observations) (k : InstanceKey) : bool :=
  existsb (fun r =>
             bool_decide (Hostname k = database_instance_maintenance.hostname r)
             && bool_decide (Port k = database_instance_maintenance.port r)
             && database_instance_maintenance.maintenance_active r)
          (maintenance o).

(** The active downtime row joined to [master_instance], if any. *)
Definition downtime_of (o : Observations) (k : InstanceKey)
  : option database_instance_downtime.row :=
  match downtime o !! k with
  | Some d => if database_instance_downtime.downtime_active d then Some d else None
  | None => None
  end.

(** The SELECT list over the group of [master_instance] = ([k], [m]).  The
    [MIN] of an expression of [master_instance] and of the side tables,
    which are the same on every row of the group, is that expression. *)
Definition select_group (o : Observations) (now : Z)
    (k : InstanceKey) (m : row) : RowMap.t :=
  let g := slaves_of o k in
  let d := downtime_of o k in
  let d_end := database_instance_downtime.end_timestamp <$> d in
  {| RowMap.hostname := Hostname k;
     RowMap.port := Port k;
     RowMap.master_host := master_host m;
     RowMap.master_port := master_port m;
     RowMap.cluster_name := cluster_name m;
     RowMap.cluster_alias :=
       sql.ifnull (cluster_alias o !! cluster_name m) (cluster_name m);
     RowMap.is_last_check_valid :=
       sql.is_true
         (sql.and
            (sql.le (Some (last_checked m)) (last_seen m))
            (sql.le (Some (last_attempted_check m))
               ((fun t => t + 2 * Z.of_N (InstancePollSeconds cfg))%Z <$> last_seen m)));
     RowMap.is_master :=
       bool_decide (master_host m = "" \/ master_host m = "_")
       || bool_decide (master_port m = 0%Z);
     RowMap.is_co_master := is_co_master m;
     RowMap.is_cluster_master :=
       bool_decide (Hostname k ++ ":" ++ pretty (Port k) = cluster_name m);
     RowMap.count_slaves := sql.count (slave_col server_id <$> g);
     RowMap.count_valid_slaves :=
       sql.ifnull (sql.sum ((fun s => sql.num (slave_valid s)) <$> g)) 0%N;
     RowMap.count_valid_replicating_slaves :=
       sql.ifnull (sql.sum ((fun s => sql.num (slave_valid_replicating s)) <$> g)) 0%N;
     RowMap.count_slaves_failing_to_connect_to_master :=
       sql.ifnull (sql.sum ((fun s => sql.num (slave_failing_to_connect s)) <$> g)) 0%N;
     RowMap.replication_depth := replication_depth m;
     RowMap.slave_hosts :=
       sql.group_concat
         ((fun s : SlaveSide =>
             (fun ks => Hostname ks.1 ++ ":" ++ pretty (Port ks.1)) <$> s) <$> g);
     RowMap.is_failing_to_connect_to_master :=
       slave_sql_running m && negb (slave_io_running m)
       && rlike_error_connecting_to_master ext (last_io_error m);
     RowMap.is_downtimed :=
       sql.is_false
         (sql.or (Some (sql.is_null d)) (sql.lt d_end (Some now)));
     RowMap.downtime_end_timestamp :=
       sql.ifnull (timestamp_text ext <$> d_end) "";
     RowMap.downtime_remaining_seconds :=
       sql.ifnull ((fun e => e - now)%Z <$> d_end) 0%Z;
     RowMap.is_binlog_server := binlog_server m;
     RowMap.is_pseudo_gtid := pseudo_gtid m;
     RowMap.supports_oracle_gtid := supports_oracle_gtid m;
     RowMap.count_oracle_gtid_slaves :=
       sql.sum ((fun s => sql.num (slave_col oracle_gtid s)) <$> g);
     RowMap.count_binlog_server_slaves :=
       sql.sum ((fun s => sql.num (slave_col binlog_server s)) <$> g);
     RowMap.is_mariadb_gtid := mariadb_gtid m |}.

(** [analysisQueryReductionClause]: the HAVING clause, when configured. *)
Definition having (r : RowMap.t) : bool :=
  if ReduceReplicationAnalysisCount cfg then
    negb (RowMap.is_last_check_valid r)
    || (0 <? RowMap.count_slaves_failing_to_connect_to_master r)%N
    || (RowMap.count_valid_slaves r <? RowMap.count_slaves r)%N
    || (RowMap.count_valid_replicating_slaves r <? RowMap.count_slaves r)%N
    || RowMap.is_failing_to_connect_to_master r
    || (0 <? RowMap.count_slaves r)%N
  else true.

(** [ORDER BY is_master DESC, is_cluster_master DESC, count_slaves DESC]:
    [r1] may come before [r2]. *)
Definition order_by (r1 r2 : RowMap.t) : Prop :=
  let b2n (b : bool) := if b then 1%N else 0%N in
  (b2n (RowMap.is_master r2) < b2n (RowMap.is_master r1))%N
  \/ (RowMap.is_master r1 = RowMap.is_master r2
      /\ ((b2n (RowMap.is_cluster_master r2) < b2n (RowMap.is_cluster_master r1))%N
          \/ (RowMap.is_cluster_master r1 = RowMap.is_cluster_master r2
              /\ (RowMap.count_slaves r2 <= RowMap.count_slaves r1)%N))).

#[local] Instance order_by_dec r1 r2 : Decision (order_by r1 r2).
Proof. unfold order_by. apply _. Defined.

(** The result set of the analysis query. *)
Definition analysis_rows (o : Observations) (now : Z) : list RowMap.t :=
  merge_sort order_by
    (filter (fun r => having r = true)
       ((fun km => select_group o now km.1 km.2) <$>
          filter (fun km : InstanceKey * row => in_maintenance o km.1 = false)
                 (map_to_list (instances o)))).

End Query.

(** ** The changelog (analysis_dao.go, lines 300-381) *)

(** Modelled from the spec: [string(analysisCode)]; the constants of
    go/inst/analysis.go are the strings that spell their names. *)
Definition AnalysisCode_string (c : AnalysisCode) : string :=
  match c with
  | NoProblem => "NoProblem"
  | DeadMasterWithoutSlaves => "DeadMasterWithoutSlaves"
  | DeadMaster => "DeadMaster"
  | DeadMasterAndSlaves => "DeadMasterAndSlaves"
  | DeadMasterAndSomeSlaves => "DeadMasterAndSomeSlaves"
  | UnreachableMaster => "UnreachableMaster"
  | MasterSingleSlaveNotReplicating => "MasterSingleSlaveNotReplicating"
  | MasterSingleSlaveDead => "MasterSingleSlaveDead"
  | AllMasterSlavesNotReplicating => "AllMasterSlavesNotReplicating"
  | AllMasterSlavesNotReplicatingOrDead => "AllMasterSlavesNotReplicatingOrDead"
  | DeadCoMaster => "DeadCoMaster"
  | DeadCoMasterAndSomeSlaves => "DeadCoMasterAndSomeSlaves"
  | UnreachableCoMaster => "UnreachableCoMaster"
  | AllCoMasterSlavesNotReplicating => "AllCoMasterSlavesNotReplicating"
  | DeadIntermediateMasterWithSingleSlaveFailingToConnect =>
      "DeadIntermediateMasterWithSingleSlaveFailingToConnect"
  | DeadIntermediateMasterWithSingleSlave => "DeadIntermediateMasterWithSingleSlave"
  | DeadIntermediateMaster => "DeadIntermediateMaster"
  | DeadIntermediateMasterAndSomeSlaves => "DeadIntermediateMasterAndSomeSlaves"
  | UnreachableIntermediateMaster => "UnreachableIntermediateMaster"
  | AllIntermediateMasterSlavesFailingToConnectOrDead =>
      "AllIntermediateMasterSlavesFailingToConnectOrDead"
  | AllIntermediateMasterSlavesNotReplicating =>
      "AllIntermediateMasterSlavesNotReplicating"
  | BinlogServerFailingToConnectToMaster => "BinlogServerFailingToConnectToMaster"
  | FirstTierSlaveFailingToConnectToMaster => "FirstTierSlaveFailingToConnectToMaster"
  end.

(** The ON DUPLICATE KEY UPDATE clause of the first statement of
    [AuditInstanceAnalysisInChangelog], on the row [old] that holds the key
    and the row [new] the INSERT would have written ([values(...)]).

    MySQL carries out the assignments of the clause one after the other,
    from left to right, on the row itself: a column named on a right-hand
    side is read as the assignments before it have left it (MySQL Reference
    Manual, UPDATE: "the second assignment ... sets col2 to the current
    (updated) col1 value, not the original col1 value").  So the second
    assignment compares [values(analysis)] with the [analysis] that the first
    one has just stored. *)
Definition on_duplicate_key_update (old new : LastAnalysis) : LastAnalysis :=
  (* analysis = values(analysis) *)
  let r := {| analysis := analysis new;
              analysis_timestamp := analysis_timestamp old |} in
  (* analysis_timestamp =
       if(analysis = values(analysis), analysis_timestamp, values(analysis_timestamp)) *)
  let r := {| analysis := analysis r;
              analysis_timestamp :=
                if decide (analysis r = analysis new)
                then analysis_timestamp r
                else analysis_timestamp new |} in
  r.

(** [insert ignore into database_instance_last_analysis (hostname, port,
    analysis_timestamp, analysis) values (?, ?, now(), ?) on duplicate key
    update ...].  Affected rows, as MySQL counts them for this kind of
    statement: 1 for a row inserted, 2 for a row updated, 0 for a row the
    update leaves as it was. *)
Definition upsert_last_analysis (k : InstanceKey) (code : AnalysisCode) (w : World)
  : Z * World :=
  let new := {| analysis := code; analysis_timestamp := now w |} in
  match last_analysis w !! k with
  | None => (1%Z, set_last_analysis w (<[k := new]> (last_analysis w)))
  | Some old =>
      let r := on_duplicate_key_update old new in
      if decide (r = old) then (0%Z, w)
      else (2%Z, set_last_analysis w (<[k := r]> (last_analysis w)))
  end.

(** [insert into database_instance_analysis_changelog (hostname, port,
    analysis_timestamp, analysis) values (?, ?, now(), ?)]. *)
Definition insert_changelog (k : InstanceKey) (code : AnalysisCode) (w : World)
  : Z * World :=
  (1%Z,
   set_analysis_changelog w
     (analysis_changelog w ++
        [{| changelog_key := k; changelog_timestamp := now w;
            changelog_analysis := code |}])).

Definition AuditInstanceAnalysisInChangelog
    (instanceKey : InstanceKey) (analysisCode : AnalysisCode) (w : World)
  : option error * World :=
  let '(sqlResult, err, w) :=
    ExecOrchestrator (upsert_last_analysis instanceKey analysisCode) w in
  match err with
  | Some _ => log_Errore err w
  | None =>
      let '(rows, err) := RowsAffected sqlResult in
      match err with
      | Some _ => log_Errore err w
      | None =>
          let lastAnalysisChanged := (0 <? rows)%Z in
          if negb lastAnalysisChanged then (None, w)
          else
            let '(_, err, w) :=
              ExecOrchestrator (insert_changelog instanceKey analysisCode) w in
            log_Errore err w
      end
  end.

(** [delete from database_instance_analysis_changelog
     where analysis_timestamp < now() - interval ? hour] *)
Definition delete_expired_changelog (hours : N) (w : World) : Z * World :=
  let kept :=
    filter (fun e => ~ (changelog_timestamp e < now w - 3600 * Z.of_N hours)%Z)
           (analysis_changelog w) in
  (Z.of_nat (length (analysis_changelog w)) - Z.of_nat (length kept),
   set_analysis_changelog w kept)%Z.

Module ReplicationAnalysisChangelog.
Record t := { AnalyzedInstanceKey : InstanceKey; Changelog : string }.
End ReplicationAnalysisChangelog.

#[global] Instance ReplicationAnalysisChangelog_eq_dec :
  EqDecision ReplicationAnalysisChangelog.t.
Proof. solve_decision. Defined.

Section Operations.
Context (ext : Externals) (cfg : Configuration).

Definition ExpireInstanceAnalysisChangelog (w : World) : option error * World :=
  let '(_, err, w) :=
    ExecOrchestrator (delete_expired_changelog (UnseenInstanceForgetHours cfg)) w in
  log_Errore err w.

(** [select hostname, port, group_concat(analysis_timestamp, ';', analysis
    order by changelog_id) as changelog from
    database_instance_analysis_changelog group by hostname, port]: one row
    per key, here in the order in which the keys first come up. *)
Definition changelog_rows (l : list ChangelogEntry) : list (InstanceKey * option string) :=
  (fun k =>
     (k, sql.group_concat
           ((fun e => Some (timestamp_text ext (changelog_timestamp e) ++ ";"
                            ++ AnalysisCode_string (changelog_analysis e)))
              <$> filter (fun e => changelog_key e = k) l)))
    <$> remove_dups (changelog_key <$> l).

Definition ReadReplicationAnalysisChangelog (w : World)
  : (list ReplicationAnalysisChangelog.t * option error) * World :=
  let '(err, (res, w)) :=
    QueryOrchestratorRowsMap (changelog_rows (analysis_changelog w))
      (fun m '(res, w) =>
         let analysisChangelog :=
           {| ReplicationAnalysisChangelog.AnalyzedInstanceKey := m.1;
              ReplicationAnalysisChangelog.Changelog := RowMap.GetString m.2 |} in
         ((res ++ [analysisChangelog])%list, w))
      [] w in
  let '(_, w) := if err is Some _ then log_Errore err w else (None, w) in
  ((res, err), w).

(** Go's [regexp.MatchString(pattern, s)]: a pattern that does not compile
    matches nothing and yields an error. *)
Definition regexp_MatchString (pattern s : string) : bool * option error :=
  match regexp_Compile ext pattern with
  | None => (false, Some ("error parsing regexp: " ++ pattern))
  | Some re => (re s, None)
  end.

(** The row callback, lines 143-172: [a] as read off the row [m].
    [a.ClusterDetails.ReadRecoveryInfo()] fills in recovery settings that
    [ClusterInfo] does not carry. *)
Definition read_row (m : RowMap.t) : ReplicationAnalysis :=
  let CountValidSlaves := RowMap.count_valid_slaves m in
  let countOracleGTIDSlaves := RowMap.GetUint (RowMap.count_oracle_gtid_slaves m) in
  let countBinlogServerSlaves := RowMap.GetUint (RowMap.count_binlog_server_slaves m) in
  {| Analysis := NoProblem;
     Description := "";
     IsMaster := RowMap.is_master m;
     IsCoMaster := RowMap.is_co_master m;
     AnalyzedInstanceKey :=
       {| Hostname := RowMap.hostname m; Port := RowMap.port m |};
     AnalyzedInstanceMasterKey :=
       {| Hostname := RowMap.master_host m; Port := RowMap.master_port m |};
     ClusterDetails :=
       {| ClusterName := RowMap.cluster_name m;
          ClusterAlias := RowMap.cluster_alias m |};
     LastCheckValid := RowMap.is_last_check_valid m;
     CountSlaves := RowMap.count_slaves m;
     CountValidSlaves := CountValidSlaves;
     CountValidReplicatingSlaves := RowMap.count_valid_replicating_slaves m;
     CountSlavesFailingToConnectToMaster :=
       RowMap.count_slaves_failing_to_connect_to_master m;
     ReplicationDepth := RowMap.replication_depth m;
     IsFailingToConnectToMaster := RowMap.is_failing_to_connect_to_master m;
     IsDowntimed := RowMap.is_downtimed m;
     DowntimeEndTimestamp := RowMap.downtime_end_timestamp m;
     DowntimeRemainingSeconds := RowMap.downtime_remaining_seconds m;
     IsBinlogServer := RowMap.is_binlog_server m;
     SlaveHosts :=
       ReadCommaDelimitedList ext (RowMap.GetString (RowMap.slave_hosts m));
     OracleGTIDImmediateTopology :=
       RowMap.supports_oracle_gtid m
       && (countOracleGTIDSlaves =? CountValidSlaves)%N
       && (0 <? CountValidSlaves)%N;
     PseudoGTIDImmediateTopology := RowMap.is_pseudo_gtid m;
     MariaDBGTIDImmediateTopology := RowMap.is_mariadb_gtid m;
     BinlogServerImmediateTopology :=
       (countBinlogServerSlaves =? CountValidSlaves)%N
       && (0 <? CountValidSlaves)%N |}.

(** Lines 274-282: [skipThisHost] once both suppressors have had their
    say. *)
Definition skipThisHost (includeDowntimed : bool) (a : ReplicationAnalysis) : bool :=
  let skipThisHost :=
    foldl (fun skipThisHost filter =>
             let '(matched, _) :=
               regexp_MatchString filter (Hostname (AnalyzedInstanceKey a)) in
             if matched then true else skipThisHost)
          false (RecoveryIgnoreHostnameFilters cfg) in
  if IsDowntimed a && negb includeDowntimed then true else skipThisHost.

(** The row callback, lines 143-291. *)
Definition on_row (includeDowntimed : bool) (m : RowMap.t)
    (acc : list ReplicationAnalysis * World) : list ReplicationAnalysis * World :=
  let '(result, w) := acc in
  let a := classify (read_row m) in
  let result :=
    if decide (Analysis a <> NoProblem) then
      if negb (skipThisHost includeDowntimed a) then (result ++ [a])%list else result
    else result in
  let w :=
    if (0 <? CountSlaves a)%N then
      (* Interesting enough for analysis *)
      (AuditInstanceAnalysisInChangelog (AnalyzedInstanceKey a) (Analysis a) w).2
    else w in
  (result, w).

Definition GetReplicationAnalysis (includeDowntimed : bool) (w : World)
  : (list ReplicationAnalysis * option error) * World :=
  let '(err, (result, w)) :=
    QueryOrchestratorRowsMap (analysis_rows ext cfg (observed w) (now w))
      (on_row includeDowntimed) [] w in
  let '(_, w) := if err is Some _ then log_Errore err w else (None, w) in
  ((result, err), w).

End Operations.

(** ** Concrete inputs *)

(** Externals to run examples with: a pattern compiles unless it is "(",
    and matches the strings it is a prefix of. *)
Definition ext0 : Externals :=
  {| regexp_Compile :=
       fun p => if decide (p = "(") then None else Some (String.prefix p);
     rlike_error_connecting_to_master :=
       fun s => bool_decide (s = "error connecting to master");
     timestamp_text := fun t => pretty t;
     ReadCommaDelimitedList := fun _ => ∅ |}.

Definition cfg0 : Configuration :=
  {| ReduceReplicationAnalysisCount := false;
     InstancePollSeconds := 5;
     RecoveryIgnoreHostnameFilters := ["test"];
     UnseenInstanceForgetHours := 240 |}.

(** A row of the analysis query for an instance without a master of its
    own (is_master = 1), of the given freshness and replica counts. *)
Definition master_row (host : string) (valid : bool) (slaves valid_slaves replicating : N)
  : RowMap.t :=
  {| RowMap.hostname := host;
     RowMap.port := 3306;
     RowMap.master_host := "";
     RowMap.master_port := 0;
     RowMap.cluster_name := host ++ ":3306";
     RowMap.cluster_alias := host ++ ":3306";
     RowMap.is_last_check_valid := valid;
     RowMap.is_master := true;
     RowMap.is_co_master := false;
     RowMap.is_cluster_master := true;
     RowMap.count_slaves := slaves;
     RowMap.count_valid_slaves := valid_slaves;
     RowMap.count_valid_replicating_slaves := replicating;
     RowMap.count_slaves_failing_to_connect_to_master := 0;
     RowMap.replication_depth := 0;
     RowMap.slave_hosts := None;
     RowMap.is_failing_to_connect_to_master := false;
     RowMap.is_downtimed := false;
     RowMap.downtime_end_timestamp := "";
     RowMap.downtime_remaining_seconds := 0;
     RowMap.is_binlog_server := false;
     RowMap.is_pseudo_gtid := false;
     RowMap.supports_oracle_gtid := false;
     RowMap.count_oracle_gtid_slaves := None;
     RowMap.count_binlog_server_slaves := None;
     RowMap.is_mariadb_gtid := false |}.

(** ** Properties of the rule chain *)

(** What the classifier hands on: the code and its description. *)
Definition verdict (a : ReplicationAnalysis) : AnalysisCode * string :=
  (Analysis a, Description a).

(** The pairs the rule chain can assign, in the order of its guards; the
    last one is what [ReplicationAnalysis{Analysis: NoProblem}] starts
    with. *)
Definition rule_table : list (AnalysisCode * string) :=
  [ (DeadMasterWithoutSlaves,
     "Master cannot be reached by orchestrator and has no slave");
    (DeadMaster,
     "Master cannot be reached by orchestrator and none of its slaves is replicating");
    (DeadMasterAndSlaves,
     "Master cannot be reached by orchestrator and none of its slaves is replicating");
    (DeadMasterAndSomeSlaves,
     "Master cannot be reached by orchestrator; some of its slaves are unreachable and none of its reachable slaves is replicating");
    (UnreachableMaster,
     "Master cannot be reached by orchestrator but it has replicating slaves; possibly a network/host issue");
    (MasterSingleSlaveNotReplicating,
     "Master is reachable but its single slave is not replicating");
    (MasterSingleSlaveDead,
     "Master is reachable but its single slave is dead");
    (AllMasterSlavesNotReplicating,
     "Master is reachable but none of its slaves is replicating");
    (AllMasterSlavesNotReplicatingOrDead,
     "Master is reachable but none of its slaves is replicating");
    (DeadCoMaster,
     "Co-master cannot be reached by orchestrator and none of its slaves is replicating");
    (DeadCoMasterAndSomeSlaves,
     "Co-master cannot be reached by orchestrator; some of its slaves are unreachable and none of its reachable slaves is replicating");
    (UnreachableCoMaster,
     "Co-master cannot be reached by orchestrator but it has replicating slaves; possibly a network/host issue");
    (AllCoMasterSlavesNotReplicating,
     "Co-master is reachable but none of its slaves is replicating");
    (DeadIntermediateMasterWithSingleSlaveFailingToConnect,
     "Intermediate master cannot be reached by orchestrator and its (single) slave is failing to connect");
    (DeadIntermediateMasterWithSingleSlave,
     "Intermediate master cannot be reached by orchestrator and its (single) slave is not replicating");
    (DeadIntermediateMaster,
     "Intermediate master cannot be reached by orchestrator and none of its slaves is replicating");
    (DeadIntermediateMasterAndSomeSlaves,
     "Intermediate master cannot be reached by orchestrator; some of its slaves are unreachable and none of its reachable slaves is replicating");
    (UnreachableIntermediateMaster,
     "Intermediate master cannot be reached by orchestrator but it has replicating slaves; possibly a network/host issue");
    (AllIntermediateMasterSlavesFailingToConnectOrDead,
     "Intermediate master is reachable but all of its slaves are failing to connect");
    (AllIntermediateMasterSlavesNotReplicating,
     "Intermediate master is reachable but none of its slaves is replicating");
    (BinlogServerFailingToConnectToMaster,
     "Binlog server is unable to connect to its master");
    (FirstTierSlaveFailingToConnectToMaster,
     "1st tier slave (directly replicating from topology master) is unable to connect to the master");
    (NoProblem, "") ].

(** Two codes that the rule chain describes in the same words. *)
Definition same_words (c1 c2 : AnalysisCode) : Prop :=
  (c1 = DeadMaster /\ c2 = DeadMasterAndSlaves)
  \/ (c1 = DeadMasterAndSlaves /\ c2 = DeadMaster)
  \/ (c1 = AllMasterSlavesNotReplicating /\ c2 = AllMasterSlavesNotReplicatingOrDead)
  \/ (c1 = AllMasterSlavesNotReplicatingOrDead /\ c2 = AllMasterSlavesNotReplicating).


(** ** Runs of the changelog recorder *)

(** The clock moves on to [t]. *)
Definition set_now (w : World) (t : Z) : World :=
  {| observed := observed w; last_analysis := last_analysis w;
     analysis_changelog := analysis_changelog w;
     now := t; faults := faults w; logged := logged w |}.

(** Calls of [AuditInstanceAnalysisInChangelog] on one key, one after the
    other; each call comes with the time at which it is made. *)
Definition audit_calls (k : InstanceKey) (calls : list (Z * AnalysisCode)) (w : World)
  : World :=
  foldl (fun w c => (AuditInstanceAnalysisInChangelog k c.2 (set_now w c.1)).2)
        w calls.

(** The calls of a run that bring a code other than the one recorded last,
    [last] being the code on record before the run, if any. *)
Fixpoint transitions (last : option AnalysisCode) (calls : list (Z * AnalysisCode))
  : list (Z * AnalysisCode) :=
  match calls with
  | [] => []
  | c :: calls =>
      if decide (last = Some c.2) then transitions last calls
      else c :: transitions (Some c.2) calls
  end.

Definition entry_of (k : InstanceKey) (c : Z * AnalysisCode) : ChangelogEntry :=
  {| changelog_key := k; changelog_timestamp := c.1; changelog_analysis := c.2 |}.

Definition no_observations : Observations :=
  {| instances := ∅; hostname_resolve := ∅; maintenance := [];
     downtime := ∅; cluster_alias := ∅ |}.

Definition db1 : InstanceKey := {| Hostname := "db1"; Port := 3306 |}.

(** A store that has seen nothing yet, at time 100, with no failure ahead. *)
Definition world0 : World :=
  {| observed := no_observations; last_analysis := ∅; analysis_changelog := [];
     now := 100; faults := []; logged := [] |}.

(** A store in which db1:3306 was recorded as DeadMaster at time 100, now
    at time 200. *)
Definition world_dead_master : World :=
  {| observed := no_observations;
     last_analysis := {[ db1 := {| analysis := DeadMaster; analysis_timestamp := 100 |} ]};
     analysis_changelog :=
       [ {| changelog_key := db1; changelog_timestamp := 100;
            changelog_analysis := DeadMaster |} ];
     now := 200; faults := []; logged := [] |}.

(** ** A classification pass, row by row *)

Section Pass.
Context (ext : Externals) (cfg : Configuration).

(** Lines 143-267 of the row callback: the row as read and classified. *)
Definition analyse (m : RowMap.t) : ReplicationAnalysis :=
  classify (read_row ext m).

(** The rows the analysis query hands to the callback: all of its result
    set, or the rows that come before a storage failure. *)
Definition delivered (w : World) : list RowMap.t :=
  let rows := analysis_rows ext cfg (observed w) (now w) in
  match (next_fault w).1 with
  | None => rows
  | Some f => take (fault_after f) rows
  end.

(** Some configured exclusion pattern matches the hostname of [a]. *)
Definition hostname_filtered (a : ReplicationAnalysis) : Prop :=
  exists filter,
    filter ∈ RecoveryIgnoreHostnameFilters cfg
    /\ (regexp_MatchString ext filter (Hostname (AnalyzedInstanceKey a))).1 = true.

(** A row is reported when it is a problem and nothing suppresses it. *)
Definition reported (incl : bool) (a : ReplicationAnalysis) : Prop :=
  Analysis a <> NoProblem /\ skipThisHost ext cfg incl a = false.

#[global] Instance reported_dec incl a : Decision (reported incl a).
Proof. unfold reported. apply _. Defined.

(** The audit calls of a pass over the classified rows [rows]: one for each
    row that has a slave. *)
Definition audit_pass (rows : list ReplicationAnalysis) (w : World) : World :=
  foldl (fun w a =>
           if (0 <? CountSlaves a)%N
           then (AuditInstanceAnalysisInChangelog
                   (AnalyzedInstanceKey a) (Analysis a) w).2
           else w)
        w rows.

End Pass.

(** The configuration with another list of exclusion patterns. *)
Definition set_filters (cfg : Configuration) (l : list string) : Configuration :=
  {| ReduceReplicationAnalysisCount := ReduceReplicationAnalysisCount cfg;
     InstancePollSeconds := InstancePollSeconds cfg;
     RecoveryIgnoreHostnameFilters := l;
     UnseenInstanceForgetHours := UnseenInstanceForgetHours cfg |}.

(** ** A small topology to run the pass on

    db1:3306 is a master that was last seen at 90 and last checked at 100:
    its last check is not valid.  db2 and db3 replicate from it, are seen
    fresh, and have both replication threads stopped.  test1:3306 is a
    master of the same kind with one slave, test2; it is under downtime
    until 500. *)
Definition instance_row (master : string) (master_port : Z) (cluster : string)
    (seen : Z) (pseudo binlog : bool) : database_instance.row :=
  {| database_instance.server_id := 1;
     database_instance.master_host := master;
     database_instance.master_port := master_port;
     database_instance.cluster_name := cluster;
     database_instance.last_checked := 100;
     database_instance.last_attempted_check := 100;
     database_instance.last_seen := Some seen;
     database_instance.slave_io_running := false;
     database_instance.slave_sql_running := false;
     database_instance.last_io_error := "";
     database_instance.is_co_master := false;
     database_instance.replication_depth := if decide (master = "") then 0 else 1;
     database_instance.binlog_server := binlog;
     database_instance.pseudo_gtid := pseudo;
     database_instance.supports_oracle_gtid := false;
     database_instance.oracle_gtid := false;
     database_instance.mariadb_gtid := false |}.

Definition topology : Observations :=
  {| instances :=
       list_to_map
         [ (db1, instance_row "" 0 "db1:3306" 90 true false);
           ({| Hostname := "db2"; Port := 3306 |},
            instance_row "db1" 3306 "db1:3306" 100 false false);
           ({| Hostname := "db3"; Port := 3306 |},
            instance_row "db1" 3306 "db1:3306" 100 false false);
           ({| Hostname := "test1"; Port := 3306 |},
            instance_row "" 0 "test1:3306" 90 false false);
           ({| Hostname := "test2"; Port := 3306 |},
            instance_row "test1" 3306 "test1:3306" 100 false false) ];
     hostname_resolve := ∅;
     maintenance := [];
     downtime :=
       {[ {| Hostname := "test1"; Port := 3306 |} :=
            {| database_instance_downtime.downtime_active := true;
               database_instance_downtime.end_timestamp := 500 |} ]};
     cluster_alias := ∅ |}.

(** The topology at time 100, nothing recorded yet; the statements to come
    meet the given failures. *)
Definition world_of (fs : list (option Fault)) : World :=
  {| observed := topology; last_analysis := ∅; analysis_changelog := [];
     now := 100; faults := fs; logged := [] |}.

Definition connection_lost : Fault :=
  {| fault_error := "connection lost"; fault_after := 0 |}.

(** A configuration with two exclusion patterns, the second of which is not
    a regular expression. *)
Definition cfg1 : Configuration :=
  {| ReduceReplicationAnalysisCount := true;
     InstancePollSeconds := 5;
     RecoveryIgnoreHostnameFilters := ["test"; "("];
     UnseenInstanceForgetHours := 240 |}.

(** The outcome of the statement that comes next: the error it fails with,
    if it fails. *)
Definition own_outcome (w : World) : option error :=
  fault_error <$> (next_fault w).1.

(** The rows the changelog query hands to its callback. *)
Definition changelog_delivered (ext : Externals) (w : World)
  : list (InstanceKey * option string) :=
  let rows := changelog_rows ext (analysis_changelog w) in
  match (next_fault w).1 with
  | None => rows
  | Some f => take (fault_after f) rows
  end.

(** The valid replicas of a group that have the capability [cap]. *)
Definition valid_slaves_with (cap : database_instance.row -> bool)
    (g : list SlaveSide) : list SlaveSide :=
  filter (fun s => slave_valid s = Some true /\ slave_col cap s = Some true) g.

(** The row of the analysis query for db1:3306 on the small topology. *)
Definition db1_row : RowMap.t :=
  select_group ext0 cfg0 topology 100 db1
    (instance_row "" 0 "db1:3306" 90 true false).

(** Membership in a list that is written out. *)
Ltac in_list := solve [repeat first [by left | right]].


(** ** Further notions for stating what the operations keep *)

(** The keys a pass over the classified rows [rows] audits. *)
Definition audited_keys (rows : list ReplicationAnalysis) : list InstanceKey :=
  AnalyzedInstanceKey <$> filter (fun a => (0 < CountSlaves a)%N) rows.

(** The key of a row of the analysis query. *)
Definition row_key (m : RowMap.t) : InstanceKey :=
  {| Hostname := RowMap.hostname m; Port := RowMap.port m |}.

(** The entry [e] is within the retention window of [cfg] at the time of
    [w]: it is not older than [UnseenInstanceForgetHours] hours. *)
Definition retained (cfg : Configuration) (w : World) (e : ChangelogEntry) : Prop :=
  (now w - 3600 * Z.of_N (UnseenInstanceForgetHours cfg) <= changelog_timestamp e)%Z.

(** The small store of [world_dead_master] a good while later: at time
    1000000 the entry of time 100 is out of the window of [cfg0]. *)
Definition world_much_later : World := set_now world_dead_master 1000000.

(** The small topology with db1:3306 under active maintenance. *)
Definition topology_db1_in_maintenance : Observations :=
  {| instances := instances topology;
     hostname_resolve := hostname_resolve topology;
     maintenance :=
       [ {| database_instance_maintenance.hostname := "db1";
            database_instance_maintenance.port := 3306;
            database_instance_maintenance.maintenance_active := true |} ];
     downtime := downtime topology;
     cluster_alias := cluster_alias topology |}.

Definition world_db1_in_maintenance : World :=
  {| observed := topology_db1_in_maintenance; last_analysis := ∅;
     analysis_changelog := []; now := 100; faults := []; logged := [] |}.

(** A row that may come before another in the returned list: a master is
    not preceded by an instance that is none. *)
Definition master_first (a b : ReplicationAnalysis) : Prop :=
  IsMaster b = true -> IsMaster a = true.

(** The row of the analysis query for db2:3306 on the small topology, a
    replica without replicas of its own, under the reduced query of [cfg1]. *)
Definition db2_row : RowMap.t :=
  select_group ext0 cfg1 topology 100 {| Hostname := "db2"; Port := 3306 |}
    (instance_row "db1" 3306 "db1:3306" 100 false false).

(** ** The codes by what they say *)

(** The codes that say the instance itself cannot be reached. *)
Definition says_unreachable (c : AnalysisCode) : bool :=
  match c with
  | DeadMasterWithoutSlaves | DeadMaster | DeadMasterAndSlaves
  | DeadMasterAndSomeSlaves | UnreachableMaster
  | DeadCoMaster | DeadCoMasterAndSomeSlaves | UnreachableCoMaster
  | DeadIntermediateMasterWithSingleSlaveFailingToConnect
  | DeadIntermediateMasterWithSingleSlave | DeadIntermediateMaster
  | DeadIntermediateMasterAndSomeSlaves | UnreachableIntermediateMaster => true
  | _ => false
  end.

(** The codes that say the instance is reachable and its slaves are in
    trouble. *)
Definition says_reachable (c : AnalysisCode) : bool :=
  match c with
  | MasterSingleSlaveNotReplicating | MasterSingleSlaveDead
  | AllMasterSlavesNotReplicating | AllMasterSlavesNotReplicatingOrDead
  | AllCoMasterSlavesNotReplicating
  | AllIntermediateMasterSlavesFailingToConnectOrDead
  | AllIntermediateMasterSlavesNotReplicating => true
  | _ => false
  end.

(** The codes that name a master, a co-master, an intermediate master. *)
Definition says_master (c : AnalysisCode) : bool :=
  match c with
  | DeadMasterWithoutSlaves | DeadMaster | DeadMasterAndSlaves
  | DeadMasterAndSomeSlaves | UnreachableMaster
  | MasterSingleSlaveNotReplicating | MasterSingleSlaveDead
  | AllMasterSlavesNotReplicating | AllMasterSlavesNotReplicatingOrDead => true
  | _ => false
  end.

Definition says_co_master (c : AnalysisCode) : bool :=
  match c with
  | DeadCoMaster | DeadCoMasterAndSomeSlaves | UnreachableCoMaster
  | AllCoMasterSlavesNotReplicating => true
  | _ => false
  end.

Definition says_intermediate_master (c : AnalysisCode) : bool :=
  match c with
  | DeadIntermediateMasterWithSingleSlaveFailingToConnect
  | DeadIntermediateMasterWithSingleSlave | DeadIntermediateMaster
  | DeadIntermediateMasterAndSomeSlaves | UnreachableIntermediateMaster
  | AllIntermediateMasterSlavesFailingToConnectOrDead
  | AllIntermediateMasterSlavesNotReplicating => true
  | _ => false
  end.

(** The codes that say some slave still replicates. *)
Definition says_replicating_slaves (c : AnalysisCode) : bool :=
  match c with
  | UnreachableMaster | UnreachableCoMaster | UnreachableIntermediateMaster => true
  | _ => false
  end.

(** The codes that say the instance fails to connect to its own master. *)
Definition says_failing_to_connect (c : AnalysisCode) : bool :=
  match c with
  | BinlogServerFailingToConnectToMaster
  | FirstTierSlaveFailingToConnectToMaster => true
  | _ => false
  end.

(** A row of the analysis query with the given role, freshness and counts,
    everything else as in [master_row]. *)
Definition row_with (master co_master valid : bool)
    (slaves valid_slaves replicating failing depth : N)
    (binlog failing_to_connect : bool) : RowMap.t :=
  {| RowMap.hostname := "db1";
     RowMap.port := 3306;
     RowMap.master_host := if master then "" else "db0";
     RowMap.master_port := if master then 0 else 3306;
     RowMap.cluster_name := "db1:3306";
     RowMap.cluster_alias := "db1:3306";
     RowMap.is_last_check_valid := valid;
     RowMap.is_master := master;
     RowMap.is_co_master := co_master;
     RowMap.is_cluster_master := master;
     RowMap.count_slaves := slaves;
     RowMap.count_valid_slaves := valid_slaves;
     RowMap.count_valid_replicating_slaves := replicating;
     RowMap.count_slaves_failing_to_connect_to_master := failing;
     RowMap.replication_depth := depth;
     RowMap.slave_hosts := None;
     RowMap.is_failing_to_connect_to_master := failing_to_connect;
     RowMap.is_downtimed := false;
     RowMap.downtime_end_timestamp := "";
     RowMap.downtime_remaining_seconds := 0;
     RowMap.is_binlog_server := binlog;
     RowMap.is_pseudo_gtid := false;
     RowMap.supports_oracle_gtid := false;
     RowMap.count_oracle_gtid_slaves := None;
     RowMap.count_binlog_server_slaves := None;
     RowMap.is_mariadb_gtid := false |}.

(** For each code a row that is classified so; the counts of each are in
    the order the query keeps them in. *)
Definition row_for (c : AnalysisCode) : RowMap.t :=
  match c with
  | NoProblem => row_with true false true 2 2 2 0 0 false false
  | DeadMasterWithoutSlaves => row_with true false false 0 0 0 0 0 false false
  | DeadMaster => row_with true false false 2 2 0 0 0 false false
  | DeadMasterAndSlaves => row_with true false false 2 0 0 0 0 false false
  | DeadMasterAndSomeSlaves => row_with true false false 2 1 0 0 0 false false
  | UnreachableMaster => row_with true false false 2 2 1 0 0 false false
  | MasterSingleSlaveNotReplicating => row_with true false true 1 1 0 0 0 false false
  | MasterSingleSlaveDead => row_with true false true 1 0 0 0 0 false false
  | AllMasterSlavesNotReplicating => row_with true false true 2 2 0 0 0 false false
  | AllMasterSlavesNotReplicatingOrDead =>
      row_with true false true 2 1 0 0 0 false false
  | DeadCoMaster => row_with false true false 2 2 0 0 1 false false
  | DeadCoMasterAndSomeSlaves => row_with false true false 2 1 0 0 1 false false
  | UnreachableCoMaster => row_with false true false 2 2 1 0 1 false false
  | AllCoMasterSlavesNotReplicating => row_with false true true 2 2 0 0 1 false false
  | DeadIntermediateMasterWithSingleSlaveFailingToConnect =>
      row_with false false false 1 1 0 1 1 false false
  | DeadIntermediateMasterWithSingleSlave =>
      row_with false false false 1 1 0 0 1 false false
  | DeadIntermediateMaster => row_with false false false 2 2 0 0 1 false false
  | DeadIntermediateMasterAndSomeSlaves =>
      row_with false false false 2 1 0 0 1 false false
  | UnreachableIntermediateMaster => row_with false false false 2 2 1 0 1 false false
  | AllIntermediateMasterSlavesFailingToConnectOrDead =>
      row_with false false true 2 1 0 1 1 false false
  | AllIntermediateMasterSlavesNotReplicating =>
      row_with false false true 2 2 0 0 1 false false
  | BinlogServerFailingToConnectToMaster =>
      row_with false false true 0 0 0 0 2 true true
  | FirstTierSlaveFailingToConnectToMaster =>
      row_with false false true 0 0 0 0 1 false true
  end.

(** The counts of a row are in the order the query keeps them in. *)
Definition counts_in_order (m : RowMap.t) : Prop :=
  (RowMap.count_valid_replicating_slaves m <= RowMap.count_valid_slaves m)%N
  /\ (RowMap.count_valid_slaves m <= RowMap.count_slaves m)%N
  /\ (RowMap.count_slaves_failing_to_connect_to_master m
      <= RowMap.count_valid_slaves m)%N.

(** The code of an instance without slaves, read off its own state. *)
Definition leaf_code (a : ReplicationAnalysis) : AnalysisCode :=
  if IsMaster a && negb (LastCheckValid a) then DeadMasterWithoutSlaves
  else if IsBinlogServer a && IsFailingToConnectToMaster a
       then BinlogServerFailingToConnectToMaster
  else if (ReplicationDepth a =? 1)%N && IsFailingToConnectToMaster a
       then FirstTierSlaveFailingToConnectToMaster
  else NoProblem.

(** What the codes of one row would have to say. *)
Definition code_fits (a : ReplicationAnalysis) (c : AnalysisCode) : Prop :=
  (says_unreachable c = true -> LastCheckValid a = false)
  /\ (says_reachable c = true ->
      LastCheckValid a = true /\ (0 < CountSlaves a)%N)
  /\ (says_master c = true -> IsMaster a = true)
  /\ (says_co_master c = true -> IsCoMaster a = true)
  /\ (says_intermediate_master c = true -> IsMaster a = false)
  /\ (says_replicating_slaves c = true ->
      (0 < CountValidReplicatingSlaves a)%N /\ (0 < CountValidSlaves a)%N)
  /\ (says_failing_to_connect c = true -> IsFailingToConnectToMaster a = true).

(** A guard of the rule chain that holds, as facts about the row. *)
Ltac guard_facts H :=
  rewrite ?andb_true_iff, ?negb_true_iff, ?N.eqb_eq, ?N.ltb_lt in H.

(** ** The changelog as it is read back *)


(** The keys of what [ReadReplicationAnalysisChangelog] returns. *)
Definition changelog_keys (res : list ReplicationAnalysisChangelog.t)
  : list InstanceKey :=
  ReplicationAnalysisChangelog.AnalyzedInstanceKey <$> res.

(** The record of [k] and the changelog are in step: the code on record is
    the code of the latest changelog entry of [k], and there is no record
    when there is no entry. *)
Definition fence_in_step (k : InstanceKey) (w : World) : Prop :=
  analysis <$> last_analysis w !! k
  = changelog_analysis
      <$> last (filter (fun e => changelog_key e = k) (analysis_changelog w)).
(** * Theorems *)

Local Open Scope list_scope.

Lemma if_elim {A} (P : A -> Prop) (c : bool) (x y : A) :
  P x -> P y -> P (if c then x else y).
Proof. by destruct c. Qed.

Lemma verdict_set_analysis a c d : verdict (set_analysis a c d) = (c, d).
Proof. reflexivity. Qed.

Lemma classify_in_table (a : ReplicationAnalysis) :
  verdict a = (NoProblem, "") -> verdict (classify a) ∈ rule_table.
Proof.
  intros Ha. unfold classify.
  repeat (apply (if_elim (fun r => verdict r ∈ rule_table));
          [rewrite verdict_set_analysis; unfold rule_table; in_list|]).
  rewrite Ha. unfold rule_table. in_list.
Qed.

(** The row callback starts every row from
    [ReplicationAnalysis{Analysis: NoProblem}]. *)
Lemma verdict_read_row ext m : verdict (read_row ext m) = (NoProblem, "").
Proof. reflexivity. Qed.

Lemma classify_keeps_counts a :
  CountSlaves (classify a) = CountSlaves a
  /\ CountValidSlaves (classify a) = CountValidSlaves a
  /\ CountValidReplicatingSlaves (classify a) = CountValidReplicatingSlaves a
  /\ CountSlavesFailingToConnectToMaster (classify a)
     = CountSlavesFailingToConnectToMaster a.
Proof.
  unfold classify.
  repeat (apply (if_elim (fun r =>
            CountSlaves r = CountSlaves a
            /\ CountValidSlaves r = CountValidSlaves a
            /\ CountValidReplicatingSlaves r = CountValidReplicatingSlaves a
            /\ CountSlavesFailingToConnectToMaster r
               = CountSlavesFailingToConnectToMaster a)); [done|]).
  done.
Qed.

Lemma classify_keeps_identity a :
  AnalyzedInstanceKey (classify a) = AnalyzedInstanceKey a
  /\ IsDowntimed (classify a) = IsDowntimed a.
Proof.
  unfold classify.
  repeat (apply (if_elim (fun r =>
            AnalyzedInstanceKey r = AnalyzedInstanceKey a
            /\ IsDowntimed r = IsDowntimed a)); [done|]).
  done.
Qed.

Lemma rule_table_pairs :
  Forall (fun p1 : AnalysisCode * string =>
    Forall (fun p2 : AnalysisCode * string =>
      (p1.1 = p2.1 -> p1.2 = p2.2)
      /\ (p1.2 = p2.2 -> p1.1 = p2.1 \/ same_words p1.1 p2.1)) rule_table) rule_table.
Proof.
  unfold same_words. apply (bool_decide_unpack _). by vm_compute.
Qed.

(** C1. A master whose last check is not valid and that has 3 slaves is
    DeadMaster when all 3 are valid and none replicates,
    DeadMasterAndSomeSlaves when only 2 are valid and none replicates, and
    UnreachableMaster when all 3 are valid and 1 replicates. *)
Theorem classify_stale_master_with_three_slaves (a : ReplicationAnalysis) :
  IsMaster a = true -> LastCheckValid a = false -> CountSlaves a = 3%N ->
  (CountValidSlaves a = 3%N -> CountValidReplicatingSlaves a = 0%N ->
     Analysis (classify a) = DeadMaster)
  /\ (CountValidSlaves a = 2%N -> CountValidReplicatingSlaves a = 0%N ->
     Analysis (classify a) = DeadMasterAndSomeSlaves)
  /\ (CountValidSlaves a = 3%N -> CountValidReplicatingSlaves a = 1%N ->
     Analysis (classify a) = UnreachableMaster).
Proof.
  intros Hm Hv Hs. unfold classify. rewrite Hm, Hv, Hs.
  repeat split; intros -> ->; reflexivity.
Qed.

Lemma classify_stale_master_with_three_slaves_witness :
  Analysis (classify (read_row ext0 (master_row "db1" false 3 3 0))) = DeadMaster
  /\ Analysis (classify (read_row ext0 (master_row "db1" false 3 2 0)))
     = DeadMasterAndSomeSlaves
  /\ Analysis (classify (read_row ext0 (master_row "db1" false 3 3 1)))
     = UnreachableMaster.
Proof.
  split; [|split].
  - apply (classify_stale_master_with_three_slaves
             (read_row ext0 (master_row "db1" false 3 3 0))); reflexivity.
  - apply (classify_stale_master_with_three_slaves
             (read_row ext0 (master_row "db1" false 3 2 0))); reflexivity.
  - apply (classify_stale_master_with_three_slaves
             (read_row ext0 (master_row "db1" false 3 3 1))); reflexivity.
Defined.

(** C9, as the code has it. Every code comes with one fixed description;
    two distinct codes have distinct descriptions unless they are DeadMaster
    and DeadMasterAndSlaves, or AllMasterSlavesNotReplicating and
    AllMasterSlavesNotReplicatingOrDead, which are described in the same
    words. *)
Theorem description_fixed_per_code (ext : Externals) (m1 m2 : RowMap.t) :
  let a1 := classify (read_row ext m1) in
  let a2 := classify (read_row ext m2) in
  (Analysis a1 = Analysis a2 -> Description a1 = Description a2)
  /\ (Description a1 = Description a2 ->
      Analysis a1 = Analysis a2 \/ same_words (Analysis a1) (Analysis a2)).
Proof.
  intros a1 a2.
  pose proof (classify_in_table _ (verdict_read_row ext m1)) as H1.
  pose proof (classify_in_table _ (verdict_read_row ext m2)) as H2.
  pose proof rule_table_pairs as HT.
  rewrite Forall_forall in HT. specialize (HT _ H1).
  rewrite Forall_forall in HT. exact (HT _ H2).
Qed.

(** C9 as stated fails: DeadMaster and DeadMasterAndSlaves are two codes
    with one description. *)
Lemma description_shared_by_two_codes :
  let a1 := classify (read_row ext0 (master_row "db1" false 3 3 0)) in
  let a2 := classify (read_row ext0 (master_row "db1" false 3 0 0)) in
  Analysis a1 = DeadMaster /\ Analysis a2 = DeadMasterAndSlaves
  /\ Analysis a1 <> Analysis a2 /\ Description a1 = Description a2.
Proof. by vm_compute. Qed.

(** ** The changelog recorder *)

(** The clause as MySQL carries it out: the code is overwritten, the
    timestamp of the row stays. *)
Lemma on_duplicate_key_update_eq old new :
  on_duplicate_key_update old new =
  {| analysis := analysis new; analysis_timestamp := analysis_timestamp old |}.
Proof.
  unfold on_duplicate_key_update. cbn.
  by destruct (decide (analysis new = analysis new)).
Qed.

Lemma upsert_last_analysis_eq k c w :
  upsert_last_analysis k c w =
  match last_analysis w !! k with
  | None =>
      (1%Z, set_last_analysis w
              (<[k := {| analysis := c; analysis_timestamp := now w |}]>
                 (last_analysis w)))
  | Some old =>
      if decide (analysis old = c) then (0%Z, w)
      else (2%Z, set_last_analysis w
                   (<[k := {| analysis := c;
                              analysis_timestamp := analysis_timestamp old |}]>
                      (last_analysis w)))
  end.
Proof.
  unfold upsert_last_analysis.
  destruct (last_analysis w !! k) as [[oc ot]|]; [|done].
  rewrite on_duplicate_key_update_eq. cbn.
  destruct (decide (oc = c)) as [->|Hne].
  - by rewrite decide_True.
  - by rewrite decide_False by congruence.
Qed.

(** A call that meets no storage failure: what it returns and what it
    leaves behind. *)
Lemma audit_without_fault k c w :
  faults w = [] ->
  let w' := (AuditInstanceAnalysisInChangelog k c w).2 in
  (AuditInstanceAnalysisInChangelog k c w).1 = None
  /\ faults w' = [] /\ now w' = now w /\ observed w' = observed w
  /\ logged w' = logged w
  /\ last_analysis w' =
       <[k := {| analysis := c;
                 analysis_timestamp :=
                   default (now w) (analysis_timestamp <$> last_analysis w !! k) |}]>
         (last_analysis w)
  /\ analysis_changelog w' =
       if decide (analysis <$> last_analysis w !! k = Some c)
       then analysis_changelog w
       else analysis_changelog w ++ [entry_of k (now w, c)].
Proof.
  intros Hf.
  unfold AuditInstanceAnalysisInChangelog, ExecOrchestrator, next_fault.
  rewrite Hf, upsert_last_analysis_eq.
  destruct (last_analysis w !! k) as [[oc ot]|] eqn:Hk; cbn.
  - destruct (decide (oc = c)) as [->|Hne]; cbn.
    + rewrite decide_True by done.
      repeat split; try done. by rewrite insert_id.
    + rewrite Hf. cbn. rewrite decide_False by congruence. done.
  - rewrite Hf. cbn. done.
Qed.

Lemma audit_calls_changelog k calls : forall w,
  faults w = [] ->
  analysis_changelog (audit_calls k calls w) =
  analysis_changelog w
    ++ (entry_of k <$> transitions (analysis <$> last_analysis w !! k) calls).
Proof.
  induction calls as [|[t c] calls IH]; intros w Hf; cbn.
  - by rewrite app_nil_r.
  - destruct (audit_without_fault k c (set_now w t) Hf)
      as (_ & Hf' & _ & _ & _ & Hla & Hcl).
    unfold audit_calls in IH. rewrite IH by done.
    rewrite Hla, Hcl, lookup_insert_eq. cbn.
    destruct (decide (analysis <$> last_analysis w !! k = Some c)) as [->|Hne].
    + reflexivity.
    + by rewrite <- app_assoc.
Qed.

(** C2. Over any run of calls on one key that meets no storage failure, a
    call appends a changelog entry exactly when its code is not the one on
    record (or there is no record); so the codes A, A, B, B, A leave the
    three entries of the transitions to A, to B and back to A, and a second
    call in a row with the same code appends nothing. *)
Theorem changelog_entry_per_transition (k : InstanceKey) (w : World) :
  faults w = [] ->
  (forall t c,
     analysis_changelog (audit_calls k [(t, c)] w) =
     if decide (analysis <$> last_analysis w !! k = Some c)
     then analysis_changelog w
     else analysis_changelog w ++ [entry_of k (t, c)])
  /\ (forall calls,
     analysis_changelog (audit_calls k calls w) =
     analysis_changelog w
       ++ (entry_of k <$> transitions (analysis <$> last_analysis w !! k) calls))
  /\ (forall A B t1 t2 t3 t4 t5,
     A <> B -> last_analysis w !! k = None ->
     analysis_changelog
       (audit_calls k [(t1, A); (t2, A); (t3, B); (t4, B); (t5, A)] w) =
     analysis_changelog w
       ++ [entry_of k (t1, A); entry_of k (t3, B); entry_of k (t5, A)])
  /\ (forall t1 t2 c,
     analysis_changelog (audit_calls k [(t1, c); (t2, c)] w) =
     analysis_changelog (audit_calls k [(t1, c)] w)).
Proof.
  intros Hf. repeat split.
  - intros t c. rewrite audit_calls_changelog by done.
    generalize (analysis <$> last_analysis w !! k). intros last. cbn.
    case_decide; [|done]. by rewrite app_nil_r.
  - intros calls. by apply audit_calls_changelog.
  - intros A B t1 t2 t3 t4 t5 HAB Hk. rewrite audit_calls_changelog by done.
    rewrite Hk. cbn.
    repeat case_decide; simplify_eq; done.
  - intros t1 t2 c. rewrite !audit_calls_changelog by done.
    generalize (analysis <$> last_analysis w !! k). intros last. cbn.
    repeat case_decide; simplify_eq; done.
Qed.

Lemma changelog_entry_per_transition_witness :
  faults world0 = []
  /\ analysis_changelog
       (audit_calls db1
          [(1, DeadMaster); (2, DeadMaster); (3, UnreachableMaster);
           (4, UnreachableMaster); (5, DeadMaster)]%Z world0)
     = [entry_of db1 (1, DeadMaster)%Z; entry_of db1 (3, UnreachableMaster)%Z;
        entry_of db1 (5, DeadMaster)%Z].
Proof.
  split; [reflexivity|].
  destruct (changelog_entry_per_transition db1 world0 eq_refl) as (_ & _ & H & _).
  apply (H DeadMaster UnreachableMaster); [discriminate | reflexivity].
Defined.

(** C4, at the input where the code leaves the claim. db1:3306 is on record
    as DeadMaster since time 100; at time 200 it is audited as
    UnreachableMaster. The code on record changes, the call reports a change
    and appends to the changelog, and the timestamp on record is still 100:
    the second assignment of the clause sees the code the first one has
    stored. *)
Theorem last_analysis_timestamp_not_overwritten :
  let w := world_dead_master in
  let r := AuditInstanceAnalysisInChangelog db1 UnreachableMaster w in
  last_analysis w !! db1
    = Some {| analysis := DeadMaster; analysis_timestamp := 100 |}
  /\ now w = 200%Z
  /\ r.1 = None
  /\ last_analysis r.2 !! db1
     = Some {| analysis := UnreachableMaster; analysis_timestamp := 100 |}
  /\ analysis_changelog r.2
     = analysis_changelog w ++ [entry_of db1 (200%Z, UnreachableMaster)].
Proof. by vm_compute. Qed.

(** The record a call leaves, in general: the code of the call, with the
    time of the call when there was no record and with the timestamp of the
    old record otherwise, whether the code has changed or not. *)
Lemma audit_last_analysis_record k c w :
  faults w = [] ->
  last_analysis (AuditInstanceAnalysisInChangelog k c w).2 !! k =
  Some {| analysis := c;
          analysis_timestamp :=
            match last_analysis w !! k with
            | None => now w
            | Some old => analysis_timestamp old
            end |}.
Proof.
  intros Hf.
  destruct (audit_without_fault k c w Hf) as (_ & _ & _ & _ & _ & Hla & _).
  rewrite Hla, lookup_insert_eq. by destruct (last_analysis w !! k).
Qed.

(** ** A classification pass *)

Section PassFacts.
Context (ext : Externals) (cfg : Configuration).

Lemma skip_fold_eq (host : string) (filters : list string) : forall b : bool,
  foldl (fun skipThisHost filter =>
           let '(matched, _) := regexp_MatchString ext filter host in
           if matched then true else skipThisHost) b filters
  = b || existsb (fun filter => (regexp_MatchString ext filter host).1) filters.
Proof.
  induction filters as [|f fs IH]; intros b; cbn.
  - by rewrite orb_false_r.
  - rewrite IH. destruct (regexp_MatchString ext f host) as [[] e]; cbn.
    + by rewrite orb_true_r.
    + done.
Qed.

Lemma skipThisHost_eq incl a :
  skipThisHost ext cfg incl a =
  (IsDowntimed a && negb incl)
  || existsb (fun filter =>
                (regexp_MatchString ext filter (Hostname (AnalyzedInstanceKey a))).1)
             (RecoveryIgnoreHostnameFilters cfg).
Proof.
  unfold skipThisHost. rewrite skip_fold_eq. cbn.
  by destruct (IsDowntimed a && negb incl).
Qed.

Lemma hostname_filtered_existsb a :
  hostname_filtered ext cfg a <->
  existsb (fun filter =>
             (regexp_MatchString ext filter (Hostname (AnalyzedInstanceKey a))).1)
          (RecoveryIgnoreHostnameFilters cfg) = true.
Proof.
  unfold hostname_filtered. rewrite existsb_exists.
  split; intros (f & Hin & Hm); exists f; split; try done.
  - by apply list_elem_of_In.
  - by apply list_elem_of_In.
Qed.

Lemma on_row_eq incl m res w :
  on_row ext cfg incl m (res, w) =
  (res ++ filter (reported ext cfg incl) [analyse ext m],
   audit_pass [analyse ext m] w).
Proof.
  unfold on_row, audit_pass. fold (analyse ext m).
  rewrite filter_cons, filter_nil. cbn [foldl]. f_equal.
  destruct (decide (reported ext cfg incl (analyse ext m))) as [[H1 H2]|Hn].
  - rewrite decide_True by done. by rewrite H2.
  - destruct (decide (Analysis (analyse ext m) <> NoProblem)) as [H|H];
      [|by rewrite app_nil_r].
    destruct (skipThisHost ext cfg incl (analyse ext m)) eqn:Hs; cbn [negb];
      [by rewrite app_nil_r|].
    by destruct Hn.
Qed.

Lemma on_rows_eq incl rows : forall res w,
  foldl (fun acc m => on_row ext cfg incl m acc) (res, w) rows =
  (res ++ filter (reported ext cfg incl) (analyse ext <$> rows),
   audit_pass (analyse ext <$> rows) w).
Proof.
  induction rows as [|m rows IH]; intros res w.
  - cbn. by rewrite app_nil_r.
  - cbn [foldl]. rewrite on_row_eq, IH. cbn [fmap list_fmap].
    f_equal. rewrite <- app_assoc. f_equal.
    rewrite (filter_cons _ (analyse ext m) (analyse ext <$> rows)).
    rewrite filter_cons, filter_nil.
    by destruct (decide (reported ext cfg incl (analyse ext m))).
Qed.

End PassFacts.

Section PassTheorems.
Context (ext : Externals) (cfg : Configuration).

(** A pass in one equation: the result list is the reported ones among the
    classified rows, the error is the outcome of the query, and the store has
    been through one audit call per row with a slave. *)
Lemma GetReplicationAnalysis_eq incl w :
  GetReplicationAnalysis ext cfg incl w =
  let err := fault_error <$> (next_fault w).1 in
  let rows := analyse ext <$> delivered ext cfg w in
  ((filter (reported ext cfg incl) rows, err),
   (log_Errore err (audit_pass rows (next_fault w).2)).2).
Proof.
  unfold GetReplicationAnalysis, QueryOrchestratorRowsMap, delivered.
  destruct (next_fault w) as [[f|] w1]; rewrite on_rows_eq; reflexivity.
Qed.

Lemma reported_not_filtered incl a :
  reported ext cfg incl a -> ~ hostname_filtered ext cfg a.
Proof.
  intros [_ Hs] Hf. apply hostname_filtered_existsb in Hf.
  rewrite skipThisHost_eq, Hf, orb_true_r in Hs. done.
Qed.

Lemma reported_iff incl a :
  reported ext cfg incl a <->
  Analysis a <> NoProblem /\ ~ hostname_filtered ext cfg a
  /\ (IsDowntimed a = true -> incl = true).
Proof.
  unfold reported. rewrite skipThisHost_eq, hostname_filtered_existsb.
  destruct (existsb _ _), (IsDowntimed a), incl; cbn; intuition congruence.
Qed.

(** C5. No row of the returned list is a NoProblem row, and none has a
    hostname that a configured exclusion pattern matches, whatever
    includeDowntimed is; the callback leaves the list as it is on such a row;
    and on any row with a slave, suppressed or not, the callback goes through
    AuditInstanceAnalysisInChangelog with the key and the code of the row, so
    that the store after the pass has been through one audit call per
    delivered row with a slave. *)
Theorem suppressed_rows_not_returned_still_audited (includeDowntimed : bool) (w : World) :
  let r := GetReplicationAnalysis ext cfg includeDowntimed w in
  (forall a, a ∈ r.1.1 ->
     Analysis a <> NoProblem /\ ~ hostname_filtered ext cfg a)
  /\ (forall m result w0,
     let a := analyse ext m in
     let r0 := on_row ext cfg includeDowntimed m (result, w0) in
     (Analysis a = NoProblem \/ hostname_filtered ext cfg a -> r0.1 = result)
     /\ ((0 < CountSlaves a)%N ->
         r0.2 = (AuditInstanceAnalysisInChangelog
                   (AnalyzedInstanceKey a) (Analysis a) w0).2))
  /\ r.2 = (log_Errore r.1.2
              (audit_pass (analyse ext <$> delivered ext cfg w) (next_fault w).2)).2.
Proof.
  intros r. unfold r. rewrite GetReplicationAnalysis_eq. cbn zeta.
  split; [|split].
  - intros a Ha. cbn in Ha. apply list_elem_of_filter in Ha as [Hr _].
    split; [apply Hr | by eapply reported_not_filtered].
  - intros m result w0. rewrite on_row_eq. cbn [fst snd].
    split.
    + intros H. rewrite filter_cons, filter_nil.
      rewrite decide_False; [by rewrite app_nil_r|].
      intros Hr. destruct H as [H|H].
      * by destruct Hr.
      * by eapply reported_not_filtered.
    + intros Hs. unfold audit_pass. cbn [foldl].
      apply N.ltb_lt in Hs. by rewrite Hs.
  - reflexivity.
Qed.

(** C6. A downtimed row is not in the list returned with
    includeDowntimed=false, and is in the list returned with
    includeDowntimed=true when it is a problem and no exclusion pattern
    matches its hostname. The two runs classify alike: the list without
    downtimed rows is the other list with its downtimed rows filtered out, and
    the error and the store after the pass, changelog included, are the
    same. *)
Theorem downtime_affects_reporting_only (w : World) :
  let rt := GetReplicationAnalysis ext cfg true w in
  let rf := GetReplicationAnalysis ext cfg false w in
  rf.1.1 = filter (fun a => IsDowntimed a = false) rt.1.1
  /\ rf.1.2 = rt.1.2 /\ rf.2 = rt.2
  /\ (forall m, m ∈ delivered ext cfg w ->
      let a := analyse ext m in
      IsDowntimed a = true ->
      (a ∉ rf.1.1)
      /\ (Analysis a <> NoProblem -> ~ hostname_filtered ext cfg a -> a ∈ rt.1.1)).
Proof.
  intros rt rf. unfold rt, rf. rewrite !GetReplicationAnalysis_eq. cbn zeta.
  cbn [fst snd]. split; [|split; [done|split; [done|]]].
  - rewrite list_filter_filter. apply list_filter_iff.
    intros a. rewrite !reported_iff. destruct (IsDowntimed a); intuition congruence.
  - intros m Hm Hd. split.
    + rewrite list_elem_of_filter, reported_iff. intuition congruence.
    + intros Hp Hf. apply list_elem_of_filter. split.
      * apply reported_iff. done.
      * apply list_elem_of_fmap. by exists m.
Qed.

End PassTheorems.


(** The pass on the small topology, downtimed rows included: db1 is
    reported; test1, whose hostname the pattern "test" matches, is not, and is
    in the changelog all the same; the instances without a slave are neither
    reported nor audited. *)
Example pass_on_topology :
  let r := GetReplicationAnalysis ext0 cfg0 true (world_of []) in
  (fun a => (Hostname (AnalyzedInstanceKey a), Analysis a, CountSlaves a)) <$> r.1.1
    = [("db1", DeadMaster, 2%N)]
  /\ r.1.2 = None
  /\ (fun e => (Hostname (changelog_key e), changelog_analysis e))
       <$> analysis_changelog r.2
     = [("db1", DeadMaster); ("test1", DeadMaster)].
Proof. by vm_compute. Qed.

(** ** Patterns that do not compile *)

Lemma existsb_without {A} (f : A -> bool) (x : A) (l1 l2 : list A) :
  f x = false -> existsb f (l1 ++ x :: l2) = existsb f (l1 ++ l2).
Proof. intros Hx. rewrite !existsb_app. cbn. by rewrite Hx. Qed.

(** C10. An exclusion pattern that is not a regular expression matches no
    hostname, and the error of compiling it goes no further: the pass returns
    and leaves behind what it does without that pattern, and the error it
    returns is the outcome of its query alone. *)
Theorem invalid_filter_matches_nothing (ext : Externals) (cfg : Configuration)
    (includeDowntimed : bool) (w : World) (p : string) (l1 l2 : list string) :
  regexp_Compile ext p = None ->
  RecoveryIgnoreHostnameFilters cfg = l1 ++ p :: l2 ->
  (forall s, (regexp_MatchString ext p s).1 = false
             /\ is_Some (regexp_MatchString ext p s).2)
  /\ GetReplicationAnalysis ext cfg includeDowntimed w
     = GetReplicationAnalysis ext (set_filters cfg (l1 ++ l2)) includeDowntimed w
  /\ (GetReplicationAnalysis ext cfg includeDowntimed w).1.2
     = fault_error <$> (next_fault w).1.
Proof.
  intros Hp Hl.
  assert (Hm : forall s, (regexp_MatchString ext p s).1 = false).
  { intros s. unfold regexp_MatchString. by rewrite Hp. }
  split; [|split].
  - intros s. split; [done|]. unfold regexp_MatchString. rewrite Hp. by eexists.
  - rewrite !GetReplicationAnalysis_eq. cbn zeta.
    change (delivered ext (set_filters cfg (l1 ++ l2)) w) with (delivered ext cfg w).
    do 2 f_equal. apply list_filter_iff. intros a. unfold reported.
    rewrite !skipThisHost_eq, Hl. cbn [RecoveryIgnoreHostnameFilters set_filters].
    by rewrite existsb_without.
  - by rewrite GetReplicationAnalysis_eq.
Qed.

Lemma invalid_filter_matches_nothing_witness :
  regexp_Compile ext0 "(" = None
  /\ (GetReplicationAnalysis ext0 cfg1 true (world_of [])).1.2 = None
  /\ GetReplicationAnalysis ext0 cfg1 true (world_of [])
     = GetReplicationAnalysis ext0 (set_filters cfg1 ["test"]) true (world_of []).
Proof.
  split; [reflexivity|].
  destruct (invalid_filter_matches_nothing ext0 cfg1 true (world_of []) "(" ["test"] [])
    as (_ & Heq & Herr); [reflexivity | reflexivity |].
  split; [exact Herr | exact Heq].
Defined.

(** ** Storage failures *)

Lemma read_rows_eq (rows : list (InstanceKey * option string)) : forall res (w : World),
  foldl (fun (acc : list ReplicationAnalysisChangelog.t * World) m =>
           let '(res, w) := acc in
           (res ++ [{| ReplicationAnalysisChangelog.AnalyzedInstanceKey := m.1;
                       ReplicationAnalysisChangelog.Changelog := RowMap.GetString m.2 |}],
            w))
        (res, w) rows
  = (res ++ ((fun m =>
                {| ReplicationAnalysisChangelog.AnalyzedInstanceKey := m.1;
                   ReplicationAnalysisChangelog.Changelog := RowMap.GetString m.2 |})
               <$> rows), w).
Proof.
  induction rows as [|m rows IH]; intros res w; cbn.
  - by rewrite app_nil_r.
  - rewrite IH. by rewrite <- app_assoc.
Qed.

(** C8, as the code has it. Each operation returns the error of the
    statements it issues itself, next to what it has produced until then: the
    expiry that of its delete, the two reading operations that of their query
    with the rows read before it, the audit that of its upsert, which then has
    changed nothing, or else of its insert. A pass returns the outcome of its
    query and nothing else: the errors that the audit calls of its callback
    return stay there. *)
Theorem storage_errors_returned_to_caller (ext : Externals) (cfg : Configuration)
    (w : World) :
  (ExpireInstanceAnalysisChangelog cfg w).1 = own_outcome w
  /\ ((ReadReplicationAnalysisChangelog ext w).1.2 = own_outcome w
      /\ (ReadReplicationAnalysisChangelog ext w).1.1
         = (fun m =>
              {| ReplicationAnalysisChangelog.AnalyzedInstanceKey := m.1;
                 ReplicationAnalysisChangelog.Changelog := RowMap.GetString m.2 |})
             <$> changelog_delivered ext w)
  /\ (forall includeDowntimed,
        (GetReplicationAnalysis ext cfg includeDowntimed w).1.2 = own_outcome w
        /\ (GetReplicationAnalysis ext cfg includeDowntimed w).1.1
           = filter (reported ext cfg includeDowntimed)
                    (analyse ext <$> delivered ext cfg w))
  /\ (forall k c,
        let r := AuditInstanceAnalysisInChangelog k c w in
        match (next_fault w).1 with
        | Some f =>
            r.1 = Some (fault_error f)
            /\ last_analysis r.2 = last_analysis w
            /\ analysis_changelog r.2 = analysis_changelog w
        | None =>
            let u := upsert_last_analysis k c (next_fault w).2 in
            r.1 = if (0 <? u.1)%Z then own_outcome u.2 else None
        end).
Proof.
  split; [|split; [|split]].
  - unfold ExpireInstanceAnalysisChangelog, ExecOrchestrator, own_outcome.
    destruct (next_fault w) as [[f|] w1]; [done|].
    by destruct (delete_expired_changelog _ w1).
  - unfold ReadReplicationAnalysisChangelog, QueryOrchestratorRowsMap,
      changelog_delivered, own_outcome.
    destruct (next_fault w) as [[f|] w1] eqn:Hn; cbn [fst snd];
      rewrite read_rows_eq; cbn; (split; [done|]); reflexivity.
  - intros incl. by rewrite GetReplicationAnalysis_eq.
  - intros k c. cbn zeta.
    unfold AuditInstanceAnalysisInChangelog, ExecOrchestrator, own_outcome.
    destruct (next_fault w) as [[f|] w1] eqn:Hn; cbn [fst snd].
    + cbn. unfold next_fault in Hn. destruct (faults w); by simplify_eq.
    + destruct (upsert_last_analysis k c w1) as [n w2]. cbn.
      destruct (0 <? n)%Z; cbn; [|done].
      destruct (next_fault w2) as [[f|] w3]; cbn; [done|].
      by destruct (insert_changelog k c w3).
Qed.

(** C8 as stated fails. On the small topology, with a storage that serves
    the query and then fails the next statement, the audit call for db1 gets
    the error back, and the pass returns no error: db1 is reported as
    DeadMaster, nothing about it is on record, the error is in the log
    only. *)
Lemma audit_failure_not_returned :
  let w := world_of [None; Some connection_lost] in
  let r := GetReplicationAnalysis ext0 cfg0 false w in
  (AuditInstanceAnalysisInChangelog db1 DeadMaster (next_fault w).2).1
    = Some "connection lost"
  /\ (fun a => (AnalyzedInstanceKey a, Analysis a)) <$> r.1.1 = [(db1, DeadMaster)]
  /\ r.1.2 = None
  /\ last_analysis r.2 !! db1 = None
  /\ logged r.2 = ["connection lost"].
Proof. by vm_compute. Qed.

(** ** The aggregates of the analysis query *)

Lemma filter_length_le {A} (P Q : A -> Prop)
    `{!forall x, Decision (P x)} `{!forall x, Decision (Q x)} (l : list A) :
  (forall x, P x -> Q x) -> length (filter P l) <= length (filter Q l).
Proof.
  intros HPQ. induction l as [|x l IH]; [done|].
  rewrite !filter_cons.
  destruct (decide (P x)) as [HP|HP].
  - rewrite decide_True by auto. cbn. lia.
  - destruct (decide (Q x)); cbn; lia.
Qed.

(** [IFNULL(SUM(e), 0)] of a condition [e] counts the rows where it is
    true. *)
Lemma sum_num_counts (f : SlaveSide -> option bool) (g : list SlaveSide) :
  sql.ifnull (sql.sum ((fun s => sql.num (f s)) <$> g)) 0%N
  = N.of_nat (length (filter (fun s => f s = Some true) g)).
Proof.
  unfold sql.ifnull. induction g as [|s g IH]; [done|].
  rewrite filter_cons. cbn [fmap list_fmap sql.sum].
  destruct (f s) as [[]|] eqn:Hf; cbn [sql.num fmap option_fmap option_map sql.sum].
  - rewrite decide_True by done. cbn [default length]. rewrite IH.
    unfold id. lia.
  - rewrite decide_False by done. cbn [default]. rewrite IH. unfold id. lia.
  - rewrite decide_False by done. exact IH.
Qed.

(** [COUNT(slave_instance.server_id)] counts the rows that have a slave
    side. *)
Lemma count_server_id (g : list SlaveSide) :
  sql.count (slave_col database_instance.server_id <$> g)
  = N.of_nat (length (filter (fun s : SlaveSide => is_Some s) g)).
Proof.
  unfold sql.count. f_equal. induction g as [|s g IH]; [done|].
  cbn [fmap list_fmap]. rewrite !filter_cons.
  destruct s as [ks|]; cbn.
  - rewrite !decide_True by (by eexists). cbn. by rewrite IH.
  - rewrite !decide_False by (by intros [? ?]). exact IH.
Qed.

Lemma slave_valid_is_Some s : slave_valid s = Some true -> is_Some s.
Proof. by destruct s. Qed.

Lemma slave_valid_replicating_valid s :
  slave_valid_replicating s = Some true -> slave_valid s = Some true.
Proof.
  unfold slave_valid_replicating.
  destruct (slave_valid s) as [[]|], (slave_col _ s) as [[]|],
    (slave_col database_instance.slave_sql_running s) as [[]|]; done.
Qed.

Lemma slave_failing_to_connect_valid ext s :
  slave_failing_to_connect ext s = Some true -> slave_valid s = Some true.
Proof.
  unfold slave_failing_to_connect.
  destruct (slave_valid s) as [[]|],
    (negb <$> slave_col database_instance.slave_io_running s) as [[]|],
    (slave_col (fun r => rlike_error_connecting_to_master ext
                           (database_instance.last_io_error r)) s) as [[]|],
    (slave_col database_instance.slave_sql_running s) as [[]|]; done.
Qed.

(** The counts of a group, one inside the other. *)
Lemma select_group_counts ext cfg o now k m :
  let r := select_group ext cfg o now k m in
  (RowMap.count_valid_replicating_slaves r <= RowMap.count_valid_slaves r)%N
  /\ (RowMap.count_valid_slaves r <= RowMap.count_slaves r)%N
  /\ (RowMap.count_slaves_failing_to_connect_to_master r <= RowMap.count_slaves r)%N.
Proof.
  cbn. rewrite !sum_num_counts, count_server_id.
  pose proof (filter_length_le
    (fun s => slave_valid_replicating s = Some true)
    (fun s => slave_valid s = Some true) (slaves_of o k)
    slave_valid_replicating_valid).
  pose proof (filter_length_le
    (fun s => slave_valid s = Some true)
    (fun s : SlaveSide => is_Some s) (slaves_of o k)
    slave_valid_is_Some).
  pose proof (filter_length_le
    (fun s => slave_failing_to_connect ext s = Some true)
    (fun s : SlaveSide => is_Some s) (slaves_of o k)
    (fun s H => slave_valid_is_Some s (slave_failing_to_connect_valid ext s H))).
  lia.
Qed.

(** A row of the result set is the SELECT list over the group of some
    instance. *)
Lemma analysis_rows_select ext cfg o now m :
  m ∈ analysis_rows ext cfg o now ->
  exists k r, instances o !! k = Some r /\ m = select_group ext cfg o now k r.
Proof.
  unfold analysis_rows. rewrite merge_sort_Permutation.
  intros Hm. apply list_elem_of_filter in Hm as [_ Hm].
  apply list_elem_of_fmap in Hm as ([k r] & -> & Hkr).
  apply list_elem_of_filter in Hkr as [_ Hkr].
  apply elem_of_map_to_list in Hkr. by exists k, r.
Qed.

(** C7. On every row the analysis query delivers, reported or not,
    0 <= CountValidReplicatingSlaves <= CountValidSlaves <= CountSlaves and
    CountSlavesFailingToConnectToMaster <= CountSlaves. *)
Theorem replica_counts_ordered (ext : Externals) (cfg : Configuration)
    (o : Observations) (now : Z) (m : RowMap.t) :
  m ∈ analysis_rows ext cfg o now ->
  let a := analyse ext m in
  (0 <= CountValidReplicatingSlaves a)%N
  /\ (CountValidReplicatingSlaves a <= CountValidSlaves a)%N
  /\ (CountValidSlaves a <= CountSlaves a)%N
  /\ (CountSlavesFailingToConnectToMaster a <= CountSlaves a)%N.
Proof.
  intros Hm a. apply analysis_rows_select in Hm as (k & r & _ & ->).
  destruct (classify_keeps_counts (read_row ext (select_group ext cfg o now k r)))
    as (H1 & H2 & H3 & H4).
  unfold a, analyse. rewrite H1, H2, H3, H4.
  destruct (select_group_counts ext cfg o now k r) as (G1 & G2 & G3).
  split; [lia|]. done.
Qed.

Lemma replica_counts_ordered_witness :
  db1_row ∈ analysis_rows ext0 cfg0 topology 100
  /\ (let a := analyse ext0 db1_row in
      (0 <= CountValidReplicatingSlaves a)%N
      /\ (CountValidReplicatingSlaves a <= CountValidSlaves a)%N
      /\ (CountValidSlaves a <= CountSlaves a)%N
      /\ (CountSlavesFailingToConnectToMaster a <= CountSlaves a)%N).
Proof.
  assert (H : db1_row ∈ analysis_rows ext0 cfg0 topology 100)
    by (vm_compute; in_list).
  split; [exact H|].
  exact (replica_counts_ordered ext0 cfg0 topology 100 db1_row H).
Defined.

Lemma classify_keeps_flags a :
  OracleGTIDImmediateTopology (classify a) = OracleGTIDImmediateTopology a
  /\ PseudoGTIDImmediateTopology (classify a) = PseudoGTIDImmediateTopology a
  /\ MariaDBGTIDImmediateTopology (classify a) = MariaDBGTIDImmediateTopology a
  /\ BinlogServerImmediateTopology (classify a) = BinlogServerImmediateTopology a.
Proof.
  unfold classify.
  repeat (apply (if_elim (fun r =>
            OracleGTIDImmediateTopology r = OracleGTIDImmediateTopology a
            /\ PseudoGTIDImmediateTopology r = PseudoGTIDImmediateTopology a
            /\ MariaDBGTIDImmediateTopology r = MariaDBGTIDImmediateTopology a
            /\ BinlogServerImmediateTopology r = BinlogServerImmediateTopology a));
          [done|]).
  done.
Qed.

(** What the two capability columns add up: the replicas of the group,
    valid or not, that have the flag set. *)
Lemma capability_columns ext cfg o now k m :
  let r := select_group ext cfg o now k m in
  RowMap.GetUint (RowMap.count_oracle_gtid_slaves r)
  = N.of_nat (length (filter
      (fun s => slave_col database_instance.oracle_gtid s = Some true)
      (slaves_of o k)))
  /\ RowMap.GetUint (RowMap.count_binlog_server_slaves r)
  = N.of_nat (length (filter
      (fun s => slave_col database_instance.binlog_server s = Some true)
      (slaves_of o k))).
Proof.
  cbn. split.
  - apply (sum_num_counts (slave_col database_instance.oracle_gtid)).
  - apply (sum_num_counts (slave_col database_instance.binlog_server)).
Qed.

(** C3, as the code has it. On the row of the instance [k] with columns [m]:
    OracleGTIDImmediateTopology holds exactly when the instance supports
    Oracle GTID, the count_oracle_gtid_slaves of the query equals
    CountValidSlaves and CountValidSlaves > 0; BinlogServerImmediateTopology
    holds exactly when the count_binlog_server_slaves of the query equals
    CountValidSlaves and CountValidSlaves > 0; PseudoGTIDImmediateTopology and
    MariaDBGTIDImmediateTopology are the pseudo_gtid and the mariadb_gtid flag
    of the instance itself, whatever its replicas. *)
Theorem topology_flags_as_computed (ext : Externals) (cfg : Configuration)
    (o : Observations) (now : Z) (k : InstanceKey) (m : database_instance.row) :
  let r := select_group ext cfg o now k m in
  let a := analyse ext r in
  (OracleGTIDImmediateTopology a = true <->
     database_instance.supports_oracle_gtid m = true
     /\ RowMap.GetUint (RowMap.count_oracle_gtid_slaves r) = CountValidSlaves a
     /\ (0 < CountValidSlaves a)%N)
  /\ (BinlogServerImmediateTopology a = true <->
     RowMap.GetUint (RowMap.count_binlog_server_slaves r) = CountValidSlaves a
     /\ (0 < CountValidSlaves a)%N)
  /\ PseudoGTIDImmediateTopology a = database_instance.pseudo_gtid m
  /\ MariaDBGTIDImmediateTopology a = database_instance.mariadb_gtid m.
Proof.
  intros r a. unfold a, analyse.
  destruct (classify_keeps_flags (read_row ext r)) as (-> & -> & -> & ->).
  destruct (classify_keeps_counts (read_row ext r)) as (_ & -> & _ & _).
  cbn [OracleGTIDImmediateTopology BinlogServerImmediateTopology
       PseudoGTIDImmediateTopology MariaDBGTIDImmediateTopology CountValidSlaves
       read_row].
  split; [|split; [|split; reflexivity]].
  - change (RowMap.supports_oracle_gtid r)
      with (database_instance.supports_oracle_gtid m).
    rewrite !andb_true_iff, N.eqb_eq, N.ltb_lt. tauto.
  - rewrite !andb_true_iff, N.eqb_eq, N.ltb_lt. tauto.
Qed.

(** C3 as stated fails. On the small topology db1 has pseudo_gtid set and
    its two valid replicas have not: PseudoGTIDImmediateTopology is true on
    the row of db1, with CountValidSlaves = 2 and no valid replica that has
    the capability. *)
Lemma pseudo_gtid_flag_without_capable_replicas :
  let r := GetReplicationAnalysis ext0 cfg0 false (world_of []) in
  (fun a => (AnalyzedInstanceKey a, PseudoGTIDImmediateTopology a, CountValidSlaves a))
    <$> r.1.1 = [(db1, true, 2%N)]
  /\ length (valid_slaves_with database_instance.pseudo_gtid (slaves_of topology db1)) = 0.
Proof. by vm_compute. Qed.

(** * Further properties of the operations *)

(** ** What an audit call touches *)

Lemma next_fault_frame w :
  observed (next_fault w).2 = observed w
  /\ now (next_fault w).2 = now w
  /\ last_analysis (next_fault w).2 = last_analysis w
  /\ analysis_changelog (next_fault w).2 = analysis_changelog w
  /\ logged (next_fault w).2 = logged w.
Proof. unfold next_fault. by destruct (faults w). Qed.

Lemma audit_frame (k : InstanceKey) (c : AnalysisCode) (w : World) :
  let w' := (AuditInstanceAnalysisInChangelog k c w).2 in
  observed w' = observed w
  /\ now w' = now w
  /\ (forall k', k' <> k -> last_analysis w' !! k' = last_analysis w !! k')
  /\ (analysis_changelog w' = analysis_changelog w
      \/ analysis_changelog w' = analysis_changelog w ++ [entry_of k (now w, c)]).
Proof.
  unfold AuditInstanceAnalysisInChangelog, ExecOrchestrator.
  destruct (next_fault_frame w) as (Ho & Hn & Hl & Hc & _).
  destruct (next_fault w) as [[f|] w1]; cbn [fst snd] in *.
  - cbn. rewrite Ho, Hn, Hl, Hc. auto.
  - rewrite upsert_last_analysis_eq.
    destruct (last_analysis w1 !! k) as [old|] eqn:Hk;
      [destruct (decide (analysis old = c))|]; cbn.
    + rewrite Ho, Hn, Hl, Hc. auto.
    + match goal with |- context [next_fault ?x] =>
        destruct (next_fault_frame x) as (Ho2 & Hn2 & Hl2 & Hc2 & _);
        destruct (next_fault x) as [[f|] w2] end; cbn [fst snd] in *; cbn;
        rewrite ?Ho2, ?Hn2, ?Hl2, ?Hc2; cbn; rewrite Ho, Hn, Hl, Hc;
        (repeat split; [by intros; rewrite lookup_insert_ne|auto]).
    + match goal with |- context [next_fault ?x] =>
        destruct (next_fault_frame x) as (Ho2 & Hn2 & Hl2 & Hc2 & _);
        destruct (next_fault x) as [[f|] w2] end; cbn [fst snd] in *; cbn;
        rewrite ?Ho2, ?Hn2, ?Hl2, ?Hc2; cbn; rewrite Ho, Hn, Hl, Hc;
        (repeat split; [by intros; rewrite lookup_insert_ne|auto]).
Qed.

(** X1. Whatever the storage does, a call of
    AuditInstanceAnalysisInChangelog for the key [k] leaves the observations
    and the clock alone, leaves the record of every other key as it was, and
    changes the changelog by appending nothing or the one entry
    ([k], now, code): it never drops, rewrites or reorders an entry. *)
Theorem audit_touches_own_key_only (k : InstanceKey) (c : AnalysisCode) (w : World) :
  let w' := (AuditInstanceAnalysisInChangelog k c w).2 in
  observed w' = observed w
  /\ now w' = now w
  /\ (forall k', k' <> k -> last_analysis w' !! k' = last_analysis w !! k')
  /\ (analysis_changelog w' = analysis_changelog w
      \/ analysis_changelog w' = analysis_changelog w ++ [entry_of k (now w, c)]).
Proof. exact (audit_frame k c w). Qed.

(** X2. When the upsert of an audit call goes through and its insert fails,
    the call returns the error of the insert with the new code on record and
    no changelog entry for it; a later call with the same code, on a storage
    that works again, finds nothing changed and appends nothing either, so
    the transition never reaches the changelog. *)
Theorem audit_insert_failure_loses_transition
    (k : InstanceKey) (c : AnalysisCode) (w : World) (f : Fault)
    (fs : list (option Fault)) :
  faults w = None :: Some f :: fs ->
  analysis <$> last_analysis w !! k <> Some c ->
  let r := AuditInstanceAnalysisInChangelog k c w in
  r.1 = Some (fault_error f)
  /\ analysis <$> last_analysis r.2 !! k = Some c
  /\ analysis_changelog r.2 = analysis_changelog w
  /\ (forall t,
        let r' := AuditInstanceAnalysisInChangelog k c
                    (set_now (set_faults r.2 []) t) in
        r'.1 = None /\ analysis_changelog r'.2 = analysis_changelog w).
Proof.
  intros Hf Hne.
  assert (Hr : let r := AuditInstanceAnalysisInChangelog k c w in
               r.1 = Some (fault_error f)
               /\ analysis <$> last_analysis r.2 !! k = Some c
               /\ analysis_changelog r.2 = analysis_changelog w).
  { unfold AuditInstanceAnalysisInChangelog, ExecOrchestrator, next_fault.
    rewrite Hf, upsert_last_analysis_eq. cbn [last_analysis set_faults].
    destruct (last_analysis w !! k) as [old|] eqn:Hk.
    - rewrite decide_False by (intros Heq; apply Hne; by rewrite <- Heq).
      cbn. by rewrite lookup_insert_eq.
    - cbn. by rewrite lookup_insert_eq. }
  cbn zeta in *. destruct Hr as (H1 & H2 & H3).
  repeat split; try done.
  - destruct (audit_without_fault k c
                (set_now (set_faults (AuditInstanceAnalysisInChangelog k c w).2 []) t)
                eq_refl) as (Hn & _). exact Hn.
  - destruct (audit_without_fault k c
                (set_now (set_faults (AuditInstanceAnalysisInChangelog k c w).2 []) t)
                eq_refl) as (_ & _ & _ & _ & _ & _ & Hcl).
    rewrite Hcl. cbn [last_analysis analysis_changelog set_now set_faults].
    by rewrite decide_True.
Qed.

Lemma audit_insert_failure_loses_transition_witness :
  let w := set_faults world0 [None; Some connection_lost] in
  let r := AuditInstanceAnalysisInChangelog db1 DeadMaster w in
  r.1 = Some "connection lost"
  /\ analysis <$> last_analysis r.2 !! db1 = Some DeadMaster
  /\ analysis_changelog r.2 = []
  /\ (AuditInstanceAnalysisInChangelog db1 DeadMaster
        (set_now (set_faults r.2 []) 300)).1 = None
  /\ analysis_changelog
       (AuditInstanceAnalysisInChangelog db1 DeadMaster
          (set_now (set_faults r.2 []) 300)).2 = [].
Proof.
  destruct (audit_insert_failure_loses_transition db1 DeadMaster
              (set_faults world0 [None; Some connection_lost])
              connection_lost [] eq_refl)
    as (H1 & H2 & H3 & H4); [by vm_compute|].
  destruct (H4 300%Z) as [H5 H6].
  repeat split; assumption.
Defined.

(** ** Expiry *)

Lemma expire_without_fault cfg w :
  faults w = [] ->
  ExpireInstanceAnalysisChangelog cfg w =
  (None,
   set_analysis_changelog w
     (filter (fun e => ~ (changelog_timestamp e
                            < now w - 3600 * Z.of_N (UnseenInstanceForgetHours cfg))%Z)
             (analysis_changelog w))).
Proof.
  intros Hf. unfold ExpireInstanceAnalysisChangelog, ExecOrchestrator, next_fault.
  rewrite Hf. reflexivity.
Qed.

(** X3. An expiry that meets no storage failure returns no error and leaves
    in the changelog exactly the entries within the retention window, in the
    order they had; the records of the last analysis stay as they were; and a
    second expiry at the same time removes nothing more. *)
Theorem expire_keeps_retained_entries (cfg : Configuration) (w : World) :
  faults w = [] ->
  let r := ExpireInstanceAnalysisChangelog cfg w in
  r.1 = None
  /\ (forall e, e ∈ analysis_changelog r.2 <->
                e ∈ analysis_changelog w /\ retained cfg w e)
  /\ analysis_changelog r.2 `sublist_of` analysis_changelog w
  /\ last_analysis r.2 = last_analysis w
  /\ ExpireInstanceAnalysisChangelog cfg r.2 = (None, r.2).
Proof.
  intros Hf. cbn zeta. rewrite expire_without_fault by done. cbn [fst snd].
  split; [done|split; [|split; [|split; [done|]]]].
  - intros e. cbn. rewrite list_elem_of_filter. unfold retained. split.
    + intros [H1 H2]. split; [done|lia].
    + intros [H1 H2]. split; [lia|done].
  - cbn. apply sublist_filter.
  - rewrite expire_without_fault by done. f_equal.
    unfold set_analysis_changelog. cbn. f_equal.
    by rewrite list_filter_filter_l.
Qed.

Lemma expire_keeps_retained_entries_witness :
  faults world_much_later = []
  /\ analysis_changelog world_much_later
     = [entry_of db1 (100%Z, DeadMaster)]
  /\ (forall e, e ∈ analysis_changelog
                      (ExpireInstanceAnalysisChangelog cfg0 world_much_later).2 <->
                e ∈ analysis_changelog world_much_later
                /\ retained cfg0 world_much_later e)
  /\ analysis_changelog (ExpireInstanceAnalysisChangelog cfg0 world_much_later).2 = [].
Proof.
  split; [reflexivity|]. split; [reflexivity|].
  destruct (expire_keeps_retained_entries cfg0 world_much_later eq_refl)
    as (_ & H & _).
  split; [exact H | reflexivity].
Defined.

(** X4. Expiry does not reopen the fence: when the code on record for [k]
    is [c], an audit of [k] with [c] right after an expiry appends nothing,
    also when the expiry has just removed the entry of the transition to
    [c]. *)
Theorem expire_then_audit_same_code (cfg : Configuration) (k : InstanceKey)
    (c : AnalysisCode) (w : World) :
  faults w = [] ->
  analysis <$> last_analysis w !! k = Some c ->
  let w1 := (ExpireInstanceAnalysisChangelog cfg w).2 in
  let r := AuditInstanceAnalysisInChangelog k c w1 in
  r.1 = None
  /\ analysis_changelog r.2 = analysis_changelog w1
  /\ last_analysis r.2 = last_analysis w.
Proof.
  intros Hf Hk. cbn zeta. rewrite expire_without_fault by done. cbn [snd].
  match goal with |- context [AuditInstanceAnalysisInChangelog k c ?x] =>
    destruct (audit_without_fault k c x Hf) as (H1 & _ & _ & _ & _ & H2 & H3) end.
  cbn [last_analysis set_analysis_changelog] in *.
  split; [exact H1|]. split.
  - rewrite H3. by rewrite decide_True.
  - rewrite H2. destruct (last_analysis w !! k) as [[oc ot]|] eqn:Hk'; [|done].
    cbn in *. simplify_eq. by rewrite insert_id.
Qed.

Lemma expire_then_audit_same_code_witness :
  let w1 := (ExpireInstanceAnalysisChangelog cfg0 world_much_later).2 in
  analysis_changelog w1 = []
  /\ analysis_changelog (AuditInstanceAnalysisInChangelog db1 DeadMaster w1).2 = [].
Proof.
  split; [reflexivity|].
  destruct (expire_then_audit_same_code cfg0 db1 DeadMaster world_much_later
              eq_refl eq_refl) as (_ & H & _).
  exact H.
Defined.

(** ** One row per instance *)

Lemma row_key_select_group ext cfg o now k r :
  row_key (select_group ext cfg o now k r) = k.
Proof. by destruct k. Qed.

Lemma analyse_key ext m : AnalyzedInstanceKey (analyse ext m) = row_key m.
Proof.
  unfold analyse.
  by destruct (classify_keeps_identity (read_row ext m)) as [-> _].
Qed.

Lemma analysis_rows_keys_NoDup ext cfg o now :
  NoDup (row_key <$> analysis_rows ext cfg o now).
Proof.
  unfold analysis_rows. rewrite merge_sort_Permutation.
  eapply sublist_NoDup; [|apply fmap_sublist, sublist_filter].
  rewrite <- list_fmap_compose.
  eapply sublist_NoDup; [apply (NoDup_fst_map_to_list (instances o))|].
  rewrite (list_fmap_ext _ fst
             (filter (fun km : InstanceKey * database_instance.row =>
                        in_maintenance o km.1 = false)
                     (map_to_list (instances o)))).
  - apply fmap_sublist, sublist_filter.
  - intros i [k r] _. apply row_key_select_group.
Qed.

Lemma delivered_sublist ext cfg w :
  delivered ext cfg w `sublist_of` analysis_rows ext cfg (observed w) (now w).
Proof.
  unfold delivered. destruct (next_fault w).1; [apply sublist_take|done].
Qed.

Lemma analysed_keys ext (rows : list RowMap.t) :
  AnalyzedInstanceKey <$> (analyse ext <$> rows) = row_key <$> rows.
Proof.
  rewrite <- list_fmap_compose. apply list_fmap_ext.
  intros i m _. apply analyse_key.
Qed.

(** X5. A pass returns at most one row per instance: the keys of the
    returned list are pairwise distinct, as the GROUP BY of the query and the
    primary key of database_instance have it. *)
Theorem result_keys_distinct (ext : Externals) (cfg : Configuration)
    (includeDowntimed : bool) (w : World) :
  NoDup (AnalyzedInstanceKey <$> (GetReplicationAnalysis ext cfg includeDowntimed w).1.1).
Proof.
  rewrite GetReplicationAnalysis_eq. cbn.
  eapply sublist_NoDup; [|apply fmap_sublist, sublist_filter].
  rewrite analysed_keys.
  eapply sublist_NoDup; [apply analysis_rows_keys_NoDup|].
  apply fmap_sublist, delivered_sublist.
Qed.

(** ** What a pass touches *)

Lemma audited_keys_cons a rows :
  audited_keys (a :: rows) =
  if (0 <? CountSlaves a)%N
  then AnalyzedInstanceKey a :: audited_keys rows
  else audited_keys rows.
Proof.
  unfold audited_keys. rewrite filter_cons.
  destruct (0 <? CountSlaves a)%N eqn:Hs.
  - apply N.ltb_lt in Hs. by rewrite decide_True.
  - apply N.ltb_ge in Hs. rewrite decide_False by lia. done.
Qed.

Lemma audit_pass_cons a rows w :
  audit_pass (a :: rows) w =
  audit_pass rows
    (if (0 <? CountSlaves a)%N
     then (AuditInstanceAnalysisInChangelog
             (AnalyzedInstanceKey a) (Analysis a) w).2
     else w).
Proof. reflexivity. Qed.

Lemma audit_pass_frame rows : forall w,
  let w' := audit_pass rows w in
  observed w' = observed w
  /\ now w' = now w
  /\ (forall k, k ∉ audited_keys rows ->
        last_analysis w' !! k = last_analysis w !! k)
  /\ exists l,
       analysis_changelog w' = analysis_changelog w ++ l
       /\ Forall (fun e => changelog_key e ∈ audited_keys rows
                           /\ changelog_timestamp e = now w) l
       /\ length l <= length (audited_keys rows).
Proof.
  induction rows as [|a rows IH]; intros w; cbn zeta.
  - cbn. repeat split; try done. exists []. by rewrite app_nil_r.
  - rewrite audit_pass_cons, audited_keys_cons.
    destruct (0 <? CountSlaves a)%N.
    + destruct (audit_frame (AnalyzedInstanceKey a) (Analysis a) w)
        as (Ho & Hn & Hl & Hc).
      destruct (IH (AuditInstanceAnalysisInChangelog
                      (AnalyzedInstanceKey a) (Analysis a) w).2)
        as (Ho' & Hn' & Hl' & l & Hc' & Hall & Hlen).
      rewrite Ho', Hn', Ho, Hn. repeat split; try done.
      * intros k Hk. apply not_elem_of_cons in Hk as [Hk1 Hk2].
        rewrite Hl' by done. by apply Hl.
      * rewrite Hn in Hall.
        assert (Hall' : Forall (fun e =>
                  changelog_key e ∈ AnalyzedInstanceKey a :: audited_keys rows
                  /\ changelog_timestamp e = now w) l).
        { eapply Forall_impl; [exact Hall|]. intros e [H1 H2].
          split; [by apply list_elem_of_further|done]. }
        destruct Hc as [Hc|Hc].
        -- exists l. rewrite Hc', Hc. repeat split; try done. cbn. lia.
        -- exists (entry_of (AnalyzedInstanceKey a) (now w, Analysis a) :: l).
           rewrite Hc', Hc, <- app_assoc. repeat split; try done.
           ++ constructor; [|done]. split; [apply list_elem_of_here|done].
           ++ cbn. lia.
    + apply IH.
Qed.

Lemma log_Errore_frame err w :
  observed (log_Errore err w).2 = observed w
  /\ now (log_Errore err w).2 = now w
  /\ last_analysis (log_Errore err w).2 = last_analysis w
  /\ analysis_changelog (log_Errore err w).2 = analysis_changelog w
  /\ faults (log_Errore err w).2 = faults w.
Proof. by destruct err. Qed.

Lemma pass_frame (ext : Externals) (cfg : Configuration)
    (includeDowntimed : bool) (w : World) :
  let w' := (GetReplicationAnalysis ext cfg includeDowntimed w).2 in
  let keys := audited_keys (analyse ext <$> delivered ext cfg w) in
  observed w' = observed w
  /\ now w' = now w
  /\ (forall k, k ∉ keys -> last_analysis w' !! k = last_analysis w !! k)
  /\ exists l,
       analysis_changelog w' = analysis_changelog w ++ l
       /\ Forall (fun e => changelog_key e ∈ keys
                           /\ changelog_timestamp e = now w) l
       /\ length l <= length keys.
Proof.
  rewrite GetReplicationAnalysis_eq. cbn zeta. cbn [snd].
  destruct (log_Errore_frame (fault_error <$> (next_fault w).1)
              (audit_pass (analyse ext <$> delivered ext cfg w) (next_fault w).2))
    as (-> & -> & -> & -> & _).
  destruct (audit_pass_frame (analyse ext <$> delivered ext cfg w) (next_fault w).2)
    as (Ho & Hn & Hl & l & Hc & Hall & Hlen).
  destruct (next_fault_frame w) as (Ho0 & Hn0 & Hl0 & Hc0 & _).
  rewrite Ho, Hn, Ho0, Hn0. repeat split; try done.
  - intros k Hk. rewrite Hl by done. by rewrite Hl0.
  - exists l. rewrite Hc, Hc0, <- Hn0. done.
Qed.

(** X6. Whatever the storage does, a pass leaves the observations and the
    clock alone, leaves alone the record of every key that is not the key of
    a delivered row with a slave, and changes the changelog only by appending:
    at most one entry per delivered row with a slave, each with the key of
    such a row and the time of the pass. *)
Theorem pass_appends_for_audited_rows_only (ext : Externals) (cfg : Configuration)
    (includeDowntimed : bool) (w : World) :
  let w' := (GetReplicationAnalysis ext cfg includeDowntimed w).2 in
  let keys := audited_keys (analyse ext <$> delivered ext cfg w) in
  observed w' = observed w
  /\ now w' = now w
  /\ (forall k, k ∉ keys -> last_analysis w' !! k = last_analysis w !! k)
  /\ exists l,
       analysis_changelog w' = analysis_changelog w ++ l
       /\ Forall (fun e => changelog_key e ∈ keys
                           /\ changelog_timestamp e = now w) l
       /\ length l <= length keys.
Proof. exact (pass_frame ext cfg includeDowntimed w). Qed.

(** ** Maintenance *)

Lemma analysis_rows_not_in_maintenance ext cfg o now m :
  m ∈ analysis_rows ext cfg o now -> in_maintenance o (row_key m) = false.
Proof.
  unfold analysis_rows. rewrite merge_sort_Permutation.
  intros Hm. apply list_elem_of_filter in Hm as [_ Hm].
  apply list_elem_of_fmap in Hm as ([k r] & -> & Hkr).
  apply list_elem_of_filter in Hkr as [Hkr _].
  by rewrite row_key_select_group.
Qed.

Lemma audited_keys_sublist rows :
  audited_keys rows `sublist_of` (AnalyzedInstanceKey <$> rows).
Proof. unfold audited_keys. apply fmap_sublist, sublist_filter. Qed.

Lemma maintenance_key_not_delivered ext cfg w k :
  in_maintenance (observed w) k = true ->
  k ∉ AnalyzedInstanceKey <$> (analyse ext <$> delivered ext cfg w).
Proof.
  intros Hk Hin. rewrite analysed_keys in Hin.
  apply list_elem_of_fmap in Hin as (m & -> & Hm).
  eapply elem_of_sublist in Hm; [|apply delivered_sublist].
  apply analysis_rows_not_in_maintenance in Hm. congruence.
Qed.

(** X7. An instance under active maintenance is out of the pass
    altogether: it is not in the returned list, its record of the last
    analysis stays as it was, and the changelog gets no entry for it. *)
Theorem maintenance_excludes_instance (ext : Externals) (cfg : Configuration)
    (includeDowntimed : bool) (w : World) (k : InstanceKey) :
  in_maintenance (observed w) k = true ->
  let r := GetReplicationAnalysis ext cfg includeDowntimed w in
  (k ∉ AnalyzedInstanceKey <$> r.1.1)
  /\ last_analysis r.2 !! k = last_analysis w !! k
  /\ filter (fun e => changelog_key e = k) (analysis_changelog r.2)
     = filter (fun e => changelog_key e = k) (analysis_changelog w).
Proof.
  intros Hk r.
  pose proof (maintenance_key_not_delivered ext cfg w k Hk) as Hnot.
  assert (Hnk : k ∉ audited_keys (analyse ext <$> delivered ext cfg w)).
  { intros Hin. apply Hnot. eapply elem_of_sublist; [exact Hin|].
    apply audited_keys_sublist. }
  destruct (pass_frame ext cfg includeDowntimed w)
    as (_ & _ & Hl & l & Hc & Hall & _).
  fold r in Hl, Hc. split; [|split].
  - unfold r. rewrite GetReplicationAnalysis_eq. cbn.
    intros Hin. apply Hnot. eapply elem_of_sublist; [exact Hin|].
    apply fmap_sublist, sublist_filter.
  - by apply Hl.
  - rewrite Hc, filter_app.
    assert (filter (fun e => changelog_key e = k) l = []) as ->;
      [|by rewrite app_nil_r].
    clear Hc. induction Hall as [|e l [He _] _ IH]; [done|].
    rewrite filter_cons, decide_False; [exact IH|].
    intros Heq. apply Hnk. by rewrite <- Heq.
Qed.

Lemma maintenance_excludes_instance_witness :
  in_maintenance (observed world_db1_in_maintenance) db1 = true
  /\ (let r := GetReplicationAnalysis ext0 cfg0 true world_db1_in_maintenance in
      (db1 ∉ AnalyzedInstanceKey <$> r.1.1)
      /\ last_analysis r.2 !! db1 = last_analysis world_db1_in_maintenance !! db1
      /\ filter (fun e => changelog_key e = db1) (analysis_changelog r.2)
         = filter (fun e => changelog_key e = db1)
                  (analysis_changelog world_db1_in_maintenance)).
Proof.
  split; [reflexivity|].
  exact (maintenance_excludes_instance ext0 cfg0 true world_db1_in_maintenance db1
           eq_refl).
Defined.

(** ** A pass over an unchanged topology *)

Lemma audit_same_code k c w :
  faults w = [] ->
  analysis <$> last_analysis w !! k = Some c ->
  AuditInstanceAnalysisInChangelog k c w = (None, w).
Proof.
  intros Hf Hk.
  unfold AuditInstanceAnalysisInChangelog, ExecOrchestrator, next_fault.
  rewrite Hf, upsert_last_analysis_eq.
  destruct (last_analysis w !! k) as [old|]; [|done].
  cbn in Hk. rewrite decide_True by congruence. reflexivity.
Qed.

Lemma audit_pass_records rows : forall w,
  faults w = [] ->
  NoDup (audited_keys rows) ->
  faults (audit_pass rows w) = []
  /\ forall a, a ∈ rows -> (0 < CountSlaves a)%N ->
       analysis <$> last_analysis (audit_pass rows w) !! AnalyzedInstanceKey a
       = Some (Analysis a).
Proof.
  induction rows as [|a rows IH]; intros w Hf Hnd.
  - split; [done|]. intros a Ha. by apply elem_of_nil in Ha.
  - rewrite audit_pass_cons. rewrite audited_keys_cons in Hnd.
    destruct (0 <? CountSlaves a)%N eqn:Hs.
    + apply NoDup_cons in Hnd as [Hnotin Hnd].
      destruct (audit_without_fault (AnalyzedInstanceKey a) (Analysis a) w Hf)
        as (_ & Hf' & _ & _ & _ & Hla & _).
      destruct (IH _ Hf' Hnd) as [Hf'' Hrec]. split; [done|].
      intros a' Ha' Hs'. apply elem_of_cons in Ha' as [->|Ha'].
      * destruct (audit_pass_frame rows
                    (AuditInstanceAnalysisInChangelog
                       (AnalyzedInstanceKey a) (Analysis a) w).2)
          as (_ & _ & Hl & _).
        rewrite Hl by done. by rewrite Hla, lookup_insert_eq.
      * by apply Hrec.
    + destruct (IH _ Hf Hnd) as [Hf'' Hrec]. split; [done|].
      intros a' Ha' Hs'. apply elem_of_cons in Ha' as [->|Ha'].
      * apply N.ltb_ge in Hs. lia.
      * by apply Hrec.
Qed.

Lemma audit_pass_steady rows : forall w,
  faults w = [] ->
  (forall a, a ∈ rows -> (0 < CountSlaves a)%N ->
     analysis <$> last_analysis w !! AnalyzedInstanceKey a = Some (Analysis a)) ->
  audit_pass rows w = w.
Proof.
  induction rows as [|a rows IH]; intros w Hf Hrec; [done|].
  rewrite audit_pass_cons.
  destruct (0 <? CountSlaves a)%N eqn:Hs.
  - rewrite audit_same_code; [|done|].
    + cbn [snd]. apply IH; [done|]. intros a' Ha'. apply Hrec.
      by apply list_elem_of_further.
    + apply Hrec; [apply list_elem_of_here|by apply N.ltb_lt].
  - apply IH; [done|]. intros a' Ha'. apply Hrec. by apply list_elem_of_further.
Qed.

(** X8. Polling an unchanged topology is quiet. After a pass that met no
    storage failure, a second pass at the same time and over the same
    observations returns what a pass returns there and leaves the store
    exactly as the first one left it: no record changes and the changelog
    gets no entry. *)
Theorem second_pass_changes_nothing (ext : Externals) (cfg : Configuration)
    (incl incl' : bool) (w : World) :
  faults w = [] ->
  let w1 := (GetReplicationAnalysis ext cfg incl w).2 in
  GetReplicationAnalysis ext cfg incl' w1
  = ((GetReplicationAnalysis ext cfg incl' w).1, w1).
Proof.
  intros Hf. cbn zeta. rewrite !GetReplicationAnalysis_eq. cbn zeta. cbn [fst snd].
  assert (Hnf : next_fault w = (None, w)) by (unfold next_fault; by rewrite Hf).
  assert (Hd : delivered ext cfg w = analysis_rows ext cfg (observed w) (now w)).
  { unfold delivered. by rewrite Hnf. }
  rewrite Hnf, Hd. cbn [fst snd fmap option_fmap option_map log_Errore].
  set (rows := analyse ext <$> analysis_rows ext cfg (observed w) (now w)).
  assert (Hnd : NoDup (audited_keys rows)).
  { eapply sublist_NoDup; [|apply audited_keys_sublist].
    unfold rows. rewrite analysed_keys. apply analysis_rows_keys_NoDup. }
  destruct (audit_pass_records rows w Hf Hnd) as [Hf1 Hrec].
  destruct (audit_pass_frame rows w) as (Ho & Hn & _).
  cbn zeta in Ho, Hn.
  assert (Hnf1 : next_fault (audit_pass rows w) = (None, audit_pass rows w))
    by (unfold next_fault; by rewrite Hf1).
  assert (Hd1 : delivered ext cfg (audit_pass rows w)
                = analysis_rows ext cfg (observed w) (now w)).
  { unfold delivered. by rewrite Hnf1, Ho, Hn. }
  rewrite Hnf1, Hd1. cbn [fst snd fmap option_fmap option_map log_Errore].
  fold rows. by rewrite (audit_pass_steady rows (audit_pass rows w) Hf1 Hrec).
Qed.

Lemma second_pass_changes_nothing_witness :
  faults (world_of []) = []
  /\ (let w1 := (GetReplicationAnalysis ext0 cfg0 true (world_of [])).2 in
      length (analysis_changelog w1) = 2
      /\ GetReplicationAnalysis ext0 cfg0 false w1
         = ((GetReplicationAnalysis ext0 cfg0 false (world_of [])).1, w1)).
Proof.
  split; [reflexivity|]. split; [reflexivity|].
  exact (second_pass_changes_nothing ext0 cfg0 true false (world_of []) eq_refl).
Defined.

(** ** The reduction clause and the order of the rows *)

(** X9. The reduction clause keeps a row exactly when the last check of the
    instance is not valid, or the instance fails to connect to its master, or
    it has a slave: on the rows of the query the three conditions on the
    counts of valid, replicating and failing slaves add nothing to
    count_slaves > 0, as the comment under the clause grants. *)
Theorem having_is_three_conditions (ext : Externals) (cfg : Configuration)
    (o : Observations) (now : Z) (k : InstanceKey) (r : database_instance.row) :
  let m := select_group ext cfg o now k r in
  having cfg m =
  negb (ReduceReplicationAnalysisCount cfg)
  || negb (RowMap.is_last_check_valid m)
  || RowMap.is_failing_to_connect_to_master m
  || (0 <? RowMap.count_slaves m)%N.
Proof.
  intros m. destruct (select_group_counts ext cfg o now k r) as (H1 & H2 & H3).
  fold m in H1, H2, H3. unfold having.
  destruct (ReduceReplicationAnalysisCount cfg); [|done]. cbn [negb orb].
  destruct (RowMap.is_last_check_valid m); [|done]. cbn [negb orb].
  destruct (RowMap.is_failing_to_connect_to_master m);
    [by rewrite !orb_true_r|]. rewrite !orb_false_r.
  destruct (0 <? RowMap.count_slaves m)%N eqn:Hs; [by rewrite !orb_true_r|].
  apply N.ltb_ge in Hs. rewrite !orb_false_r.
  rewrite !orb_false_iff, !N.ltb_ge. lia.
Qed.

Lemma classify_quiet a :
  LastCheckValid a = true -> CountSlaves a = 0%N ->
  IsFailingToConnectToMaster a = false ->
  classify a = a.
Proof.
  intros Hv Hs Hf. unfold classify. rewrite Hv, Hs, Hf. cbn [negb].
  rewrite !andb_false_r. cbn.
  destruct (IsMaster a), (IsCoMaster a); cbn; rewrite ?andb_false_r; reflexivity.
Qed.

(** X10. The reduction clause hides no problem and no audit: a row it
    drops is classified NoProblem and has no slave, so the callback would
    neither have added it to the list nor have audited it. *)
Theorem reduction_drops_quiet_rows_only (ext : Externals) (cfg : Configuration)
    (includeDowntimed : bool) (m : RowMap.t)
    (result : list ReplicationAnalysis) (w : World) :
  having cfg m = false ->
  Analysis (analyse ext m) = NoProblem
  /\ CountSlaves (analyse ext m) = 0%N
  /\ on_row ext cfg includeDowntimed m (result, w) = (result, w).
Proof.
  intros Hh. unfold having in Hh.
  destruct (ReduceReplicationAnalysisCount cfg); [|done].
  rewrite !orb_false_iff in Hh.
  destruct Hh as (((((Hv & _) & _) & _) & Hf) & Hs).
  apply negb_false_iff in Hv. apply N.ltb_ge in Hs.
  assert (Hq : analyse ext m = read_row ext m).
  { unfold analyse. apply classify_quiet; cbn; [done|lia|done]. }
  assert (Hc : CountSlaves (analyse ext m) = 0%N) by (rewrite Hq; cbn; lia).
  assert (Ha : Analysis (analyse ext m) = NoProblem) by by rewrite Hq.
  split; [done|split; [done|]].
  rewrite on_row_eq, filter_cons, filter_nil.
  rewrite decide_False by (by intros [? _]). rewrite app_nil_r.
  unfold audit_pass. cbn [foldl]. by rewrite Hc.
Qed.

Lemma reduction_drops_quiet_rows_only_witness :
  having cfg1 db2_row = false
  /\ Analysis (analyse ext0 db2_row) = NoProblem
  /\ CountSlaves (analyse ext0 db2_row) = 0%N
  /\ on_row ext0 cfg1 true db2_row ([], world_of []) = ([], world_of []).
Proof.
  split; [reflexivity|].
  exact (reduction_drops_quiet_rows_only ext0 cfg1 true db2_row [] (world_of [])
           eq_refl).
Defined.

#[local] Instance order_by_total : Total order_by.
Proof.
  intros x y. unfold order_by.
  destruct (RowMap.is_master x), (RowMap.is_master y),
    (RowMap.is_cluster_master x), (RowMap.is_cluster_master y);
    destruct (N.le_ge_cases (RowMap.count_slaves x) (RowMap.count_slaves y));
    cbn; intuition (lia || congruence).
Qed.

#[local] Instance order_by_trans : Transitive order_by.
Proof.
  intros x y z. unfold order_by.
  destruct (RowMap.is_master x), (RowMap.is_master y), (RowMap.is_master z),
    (RowMap.is_cluster_master x), (RowMap.is_cluster_master y),
    (RowMap.is_cluster_master z); cbn; intuition (lia || congruence).
Qed.

Lemma StronglySorted_sublist {A} (R : relation A) (l1 l2 : list A) :
  l1 `sublist_of` l2 -> StronglySorted R l2 -> StronglySorted R l1.
Proof.
  induction 1 as [|x l1 l2 Hsub IH|x l1 l2 Hsub IH]; intros Hs.
  - constructor.
  - apply StronglySorted_cons in Hs as [Hall Hs]. constructor; [by apply IH|].
    rewrite Forall_forall in *. intros y Hy. apply Hall.
    by eapply elem_of_sublist.
  - apply StronglySorted_cons in Hs as [_ Hs]. by apply IH.
Qed.

Lemma classify_keeps_IsMaster a : IsMaster (classify a) = IsMaster a.
Proof.
  unfold classify.
  repeat (apply (if_elim (fun r => IsMaster r = IsMaster a)); [done|]).
  done.
Qed.

(** X11. The rows of the analysis query come sorted as its ORDER BY has
    it, so that in the list a pass returns no instance that is not a master
    comes before a master. *)
Theorem result_has_masters_first (ext : Externals) (cfg : Configuration)
    (includeDowntimed : bool) (w : World) :
  StronglySorted order_by (analysis_rows ext cfg (observed w) (now w))
  /\ StronglySorted master_first
       (GetReplicationAnalysis ext cfg includeDowntimed w).1.1.
Proof.
  assert (Hs : StronglySorted order_by (analysis_rows ext cfg (observed w) (now w))).
  { unfold analysis_rows. apply StronglySorted_merge_sort; apply _. }
  split; [exact Hs|].
  rewrite GetReplicationAnalysis_eq. cbn.
  eapply StronglySorted_sublist; [apply sublist_filter|].
  apply (StronglySorted_fmap _ order_by).
  - intros x y Hxy. unfold master_first, analyse.
    rewrite !classify_keeps_IsMaster. cbn. unfold order_by in Hxy.
    destruct (RowMap.is_master x), (RowMap.is_master y); cbn in *;
      intuition (lia || congruence).
  - eapply StronglySorted_sublist; [apply delivered_sublist|exact Hs].
Qed.

(** ** What a code says about the row *)

Lemma if_elim_guard {A} (P : A -> Prop) (c : bool) (x y : A) :
  (c = true -> P x) -> (c = false -> P y) -> P (if c then x else y).
Proof. destruct c; auto. Qed.

(** X12. The code of a row fits the row. A code that says the instance
    cannot be reached is only given when its last check is not valid, a code
    that says it is reachable only when the check is valid and it has a
    slave; a master, co-master or intermediate-master code is only given to an
    instance of that role; a code that says slaves still replicate only when
    some valid slave replicates; and a failing-to-connect code only when the
    instance itself fails to connect to its master. *)
Theorem code_fits_row (ext : Externals) (m : RowMap.t) :
  code_fits (read_row ext m) (Analysis (analyse ext m)).
Proof.
  unfold analyse, classify.
  repeat (apply (if_elim_guard
                   (fun r => code_fits (read_row ext m) (Analysis r)));
          [intros H; guard_facts H; unfold code_fits;
           cbn [Analysis set_analysis says_unreachable says_reachable says_master
                says_co_master says_intermediate_master says_replicating_slaves
                says_failing_to_connect];
           repeat split; intros; try discriminate; try tauto; try lia
          | intros _]).
  unfold code_fits. cbn. repeat split; discriminate.
Qed.

(** X13. Every code of the taxonomy is given to some row whose counts are
    in order: no guard of the chain is cut off by the guards before it. *)
Theorem every_code_is_reached (ext : Externals) (c : AnalysisCode) :
  exists m : RowMap.t, counts_in_order m /\ Analysis (analyse ext m) = c.
Proof.
  exists (row_for c). split.
  - unfold counts_in_order. destruct c; cbn; lia.
  - destruct c; reflexivity.
Qed.

(** X14. An instance without slaves is diagnosed from its own state alone:
    on a row of the query with count_slaves = 0 the code is
    DeadMasterWithoutSlaves for a master whose last check is not valid, else
    one of the two failing-to-connect codes when they apply, else
    NoProblem. *)
Theorem leaf_is_diagnosed_by_itself (ext : Externals) (cfg : Configuration)
    (o : Observations) (now : Z) (m : RowMap.t) :
  m ∈ analysis_rows ext cfg o now ->
  RowMap.count_slaves m = 0%N ->
  Analysis (analyse ext m) = leaf_code (read_row ext m).
Proof.
  intros Hm Hs.
  assert (H : (RowMap.count_valid_replicating_slaves m
                 <= RowMap.count_valid_slaves m)%N
              /\ (RowMap.count_valid_slaves m <= RowMap.count_slaves m)%N).
  { apply analysis_rows_select in Hm as (k & r & _ & ->).
    destruct (select_group_counts ext cfg o now k r) as (G1 & G2 & _). done. }
  destruct H as [H1 H2]. unfold analyse.
  assert (Hv : RowMap.count_valid_slaves m = 0%N) by lia.
  assert (Hr : RowMap.count_valid_replicating_slaves m = 0%N) by lia.
  unfold classify, leaf_code.
  cbn [CountSlaves CountValidSlaves CountValidReplicatingSlaves IsMaster
       LastCheckValid IsCoMaster IsBinlogServer IsFailingToConnectToMaster
       ReplicationDepth CountSlavesFailingToConnectToMaster read_row].
  rewrite Hs, Hv, Hr.
  destruct (RowMap.is_master m), (RowMap.is_last_check_valid m),
    (RowMap.is_co_master m), (RowMap.is_binlog_server m),
    (RowMap.is_failing_to_connect_to_master m),
    (RowMap.replication_depth m =? 1)%N; reflexivity.
Qed.

Lemma leaf_is_diagnosed_by_itself_witness :
  db2_row ∈ analysis_rows ext0 cfg0 topology 100
  /\ RowMap.count_slaves db2_row = 0%N
  /\ Analysis (analyse ext0 db2_row) = leaf_code (read_row ext0 db2_row).
Proof.
  assert (H : db2_row ∈ analysis_rows ext0 cfg0 topology 100)
    by (vm_compute; in_list).
  split; [exact H|]. split; [reflexivity|].
  exact (leaf_is_diagnosed_by_itself ext0 cfg0 topology 100 db2_row H eq_refl).
Defined.

(** ** Record and changelog in step *)

(** X15. As long as the storage works, an audit call keeps the record of
    the last analysis and the changelog in step, for the key it is about and
    for every other key: where the code on record was the code of the latest
    changelog entry of a key before the call, it is so after it. *)
Theorem audit_keeps_fence_in_step (k k' : InstanceKey) (c : AnalysisCode) (w : World) :
  faults w = [] ->
  fence_in_step k w ->
  fence_in_step k (AuditInstanceAnalysisInChangelog k' c w).2.
Proof.
  intros Hf Hk. unfold fence_in_step in *.
  destruct (audit_without_fault k' c w Hf) as (_ & _ & _ & _ & _ & Hla & Hcl).
  cbn zeta in Hla, Hcl. rewrite Hla, Hcl.
  destruct (decide (k' = k)) as [->|Hne].
  - rewrite lookup_insert_eq. cbn.
    destruct (decide (analysis <$> last_analysis w !! k = Some c)) as [Heq|Hneq].
    + by rewrite <- Hk, Heq.
    + rewrite filter_app, filter_cons, filter_nil, decide_True by done.
      by rewrite last_snoc.
  - rewrite lookup_insert_ne by done.
    destruct (decide (analysis <$> last_analysis w !! k' = Some c)); [done|].
    rewrite filter_app, filter_cons, filter_nil, decide_False by done.
    by rewrite app_nil_r.
Qed.

Lemma audit_keeps_fence_in_step_witness :
  fence_in_step db1 world_dead_master
  /\ fence_in_step db1
       (AuditInstanceAnalysisInChangelog db1 UnreachableMaster world_dead_master).2.
Proof.
  assert (H : fence_in_step db1 world_dead_master) by reflexivity.
  split; [exact H|].
  exact (audit_keeps_fence_in_step db1 db1 UnreachableMaster world_dead_master
           eq_refl H).
Defined.

(** ** Reading the changelog back *)







Lemma changelog_rows_keys ext l :
  (changelog_rows ext l).*1 = remove_dups (changelog_key <$> l).
Proof.
  unfold changelog_rows. rewrite <- list_fmap_compose.
  rewrite <- (list_fmap_id (remove_dups (changelog_key <$> l))) at 2.
  by apply list_fmap_ext.
Qed.

Lemma read_keys (rows : list (InstanceKey * option string)) :
  changelog_keys
    ((fun m =>
        {| ReplicationAnalysisChangelog.AnalyzedInstanceKey := m.1;
           ReplicationAnalysisChangelog.Changelog := RowMap.GetString m.2 |})
       <$> rows)
  = rows.*1.
Proof.
  unfold changelog_keys. rewrite <- list_fmap_compose.
  by apply list_fmap_ext.
Qed.

(** X17. ReadReplicationAnalysisChangelog returns at most one row per key,
    only for keys that have a changelog entry, and, when its query does not
    fail, a row for every key that has one; whatever the storage does, it
    leaves the changelog and the records of the last analysis as they
    were. *)
Theorem read_one_row_per_key (ext : Externals) (w : World) :
  let r := ReadReplicationAnalysisChangelog ext w in
  NoDup (changelog_keys r.1.1)
  /\ (forall k, k ∈ changelog_keys r.1.1 ->
        exists e, e ∈ analysis_changelog w /\ changelog_key e = k)
  /\ (own_outcome w = None ->
      forall e, e ∈ analysis_changelog w -> changelog_key e ∈ changelog_keys r.1.1)
  /\ analysis_changelog r.2 = analysis_changelog w
  /\ last_analysis r.2 = last_analysis w.
Proof.
  cbn zeta. unfold ReadReplicationAnalysisChangelog, QueryOrchestratorRowsMap,
    own_outcome.
  destruct (next_fault_frame w) as (_ & _ & Hl & Hc & _).
  destruct (next_fault w) as [[f|] w1]; cbn [fst snd] in *;
    rewrite read_rows_eq; cbn [fst snd app log_Errore];
    rewrite read_keys.
  - rewrite fmap_take, changelog_rows_keys.
    split; [|split; [|split; [done|by cbn]]].
    + eapply sublist_NoDup; [apply NoDup_remove_dups|apply sublist_take].
    + intros k Hk. eapply elem_of_sublist in Hk; [|apply sublist_take].
      apply elem_of_remove_dups, list_elem_of_fmap in Hk as (e & -> & He).
      by exists e.
  - rewrite changelog_rows_keys.
    split; [|split; [|split; [|by cbn]]].
    + apply NoDup_remove_dups.
    + intros k Hk'.
      apply elem_of_remove_dups, list_elem_of_fmap in Hk' as (e & -> & He).
      by exists e.
    + intros _ e He. apply elem_of_remove_dups, list_elem_of_fmap. by exists e.
Qed.

(** ** Downtime and exclusion patterns *)

Lemma classify_keeps_downtime a :
  IsDowntimed (classify a) = IsDowntimed a
  /\ DowntimeRemainingSeconds (classify a) = DowntimeRemainingSeconds a
  /\ DowntimeEndTimestamp (classify a) = DowntimeEndTimestamp a.
Proof.
  unfold classify.
  repeat (apply (if_elim (fun r =>
            IsDowntimed r = IsDowntimed a
            /\ DowntimeRemainingSeconds r = DowntimeRemainingSeconds a
            /\ DowntimeEndTimestamp r = DowntimeEndTimestamp a)); [done|]).
  done.
Qed.

(** X18. An instance counts as downtimed exactly while it has an active
    downtime row that has not ended at the time of the query: a downtime that
    is over or not active suppresses nothing. On a downtimed row the remaining
    seconds are not negative; on a row without an active downtime row they
    are 0 and the end timestamp is empty. *)
Theorem downtimed_while_window_open (ext : Externals) (cfg : Configuration)
    (o : Observations) (now : Z) (k : InstanceKey) (r : database_instance.row) :
  let a := analyse ext (select_group ext cfg o now k r) in
  (IsDowntimed a = true <->
     exists d, downtime o !! k = Some d
               /\ database_instance_downtime.downtime_active d = true
               /\ (now <= database_instance_downtime.end_timestamp d)%Z)
  /\ (IsDowntimed a = true -> (0 <= DowntimeRemainingSeconds a)%Z)
  /\ (downtime_of o k = None ->
      IsDowntimed a = false /\ DowntimeRemainingSeconds a = 0%Z
      /\ DowntimeEndTimestamp a = "").
Proof.
  intros a. unfold a, analyse.
  destruct (classify_keeps_downtime
              (read_row ext (select_group ext cfg o now k r))) as (-> & -> & ->).
  cbn [IsDowntimed DowntimeRemainingSeconds DowntimeEndTimestamp read_row
       RowMap.is_downtimed RowMap.downtime_remaining_seconds
       RowMap.downtime_end_timestamp select_group].
  unfold downtime_of.
  destruct (downtime o !! k) as [[act e]|] eqn:Hd; cbn.
  - destruct act; cbn.
    + destruct (e <? now)%Z eqn:He; cbn.
      * apply Z.ltb_lt in He. split; [|split; done]. split; [done|].
        intros (d & Hd' & _ & Hle). simplify_eq. cbn in Hle. lia.
      * apply Z.ltb_ge in He. split; [|split; [intros _; lia|done]].
        split; [|done]. intros _. eexists. split; [done|]. cbn. split; [done|lia].
    + split; [|split; done]. split; [done|].
      intros (d & Hd' & Hact & _). by simplify_eq.
  - split; [|split; done]. split; [done|]. by intros (d & ? & _).
Qed.

(** X19. Exclusion patterns only narrow the returned list. With more
    patterns configured, the list a pass returns is a sublist of the one it
    returns with fewer, and the error and the store after the pass, changelog
    and records, do not depend on the patterns at all. *)
Theorem more_filters_narrow_result_only (ext : Externals) (cfg : Configuration)
    (includeDowntimed : bool) (w : World) (l l' : list string) :
  (forall p, p ∈ l -> p ∈ l') ->
  let r := GetReplicationAnalysis ext (set_filters cfg l) includeDowntimed w in
  let r' := GetReplicationAnalysis ext (set_filters cfg l') includeDowntimed w in
  r'.1.1 `sublist_of` r.1.1 /\ r'.1.2 = r.1.2 /\ r'.2 = r.2.
Proof.
  intros Hsub. cbn zeta. rewrite !GetReplicationAnalysis_eq. cbn zeta. cbn [fst snd].
  change (delivered ext (set_filters cfg l') w) with (delivered ext cfg w).
  change (delivered ext (set_filters cfg l) w) with (delivered ext cfg w).
  split; [|done].
  rewrite <- (list_filter_filter_l
                (reported ext (set_filters cfg l') includeDowntimed)
                (reported ext (set_filters cfg l) includeDowntimed)).
  - apply sublist_filter.
  - intros a. rewrite !reported_iff. intros (H1 & H2 & H3).
    split; [done|split; [|done]].
    intros (p & Hp & Hm). apply H2. exists p. split; [|done].
    cbn in *. by apply Hsub.
Qed.

Lemma more_filters_narrow_result_only_witness :
  let r := GetReplicationAnalysis ext0 (set_filters cfg0 []) true (world_of []) in
  let r' := GetReplicationAnalysis ext0 (set_filters cfg0 ["test"]) true (world_of []) in
  length r.1.1 = 2 /\ length r'.1.1 = 1
  /\ r'.1.1 `sublist_of` r.1.1 /\ r'.1.2 = r.1.2 /\ r'.2 = r.2.
Proof.
  split; [reflexivity|]. split; [reflexivity|].
  apply (more_filters_narrow_result_only ext0 cfg0 true (world_of []) [] ["test"]).
  intros p Hp. by apply elem_of_nil in Hp.
Defined.

(** ** The code on record, and the log *)

Lemma audit_calls_cons k c calls w :
  audit_calls k (c :: calls) w
  = audit_calls k calls
      (AuditInstanceAnalysisInChangelog k c.2 (set_now w c.1)).2.
Proof. reflexivity. Qed.

(** X20. The last writer wins on the code: after a run of audit calls on
    one key that met no storage failure, the code on record for the key is
    the code of the last call of the run. *)
Theorem record_holds_last_code (k : InstanceKey) (calls : list (Z * AnalysisCode))
    (w : World) :
  faults w = [] ->
  calls <> [] ->
  analysis <$> last_analysis (audit_calls k calls w) !! k = snd <$> last calls.
Proof.
  revert w. induction calls as [|[t c] calls IH]; intros w Hf Hne; [done|].
  rewrite audit_calls_cons. cbn [fst snd].
  destruct (audit_without_fault k c (set_now w t) Hf)
    as (_ & Hf' & _ & _ & _ & Hla & _).
  destruct calls as [|c' calls'].
  - cbn zeta in Hla. unfold audit_calls. cbn [foldl last].
    by rewrite Hla, lookup_insert_eq.
  - rewrite IH; [done|exact Hf'|done].
Qed.

Lemma record_holds_last_code_witness :
  faults world0 = []
  /\ analysis
       <$> last_analysis
             (audit_calls db1 [(1, DeadMaster); (2, UnreachableMaster)]%Z world0)
           !! db1
     = Some UnreachableMaster.
Proof.
  split; [reflexivity|].
  apply (record_holds_last_code db1 [(1, DeadMaster); (2, UnreachableMaster)]%Z
           world0 eq_refl).
  discriminate.
Defined.

(** X21. The audit and the expiry log what they return and return what
    they log: whatever the storage does, the log after a call is the log
    before it followed by the error the call returns, if it returns one. A
    failed expiry has deleted nothing. *)
Theorem returned_errors_are_logged (cfg : Configuration) (k : InstanceKey)
    (c : AnalysisCode) (w : World) :
  let r := AuditInstanceAnalysisInChangelog k c w in
  let x := ExpireInstanceAnalysisChangelog cfg w in
  logged r.2 = logged w ++ option_list r.1
  /\ logged x.2 = logged w ++ option_list x.1
  /\ (is_Some x.1 -> analysis_changelog x.2 = analysis_changelog w).
Proof.
  cbn zeta. split; [|split].
  - unfold AuditInstanceAnalysisInChangelog, ExecOrchestrator.
    destruct (next_fault_frame w) as (_ & _ & _ & _ & Hlog).
    destruct (next_fault w) as [[f|] w1]; cbn [fst snd] in *.
    + cbn. by rewrite Hlog.
    + rewrite upsert_last_analysis_eq.
      destruct (last_analysis w1 !! k) as [old|];
        [destruct (decide (analysis old = c))|]; cbn.
      * by rewrite Hlog, app_nil_r.
      * match goal with |- context [next_fault ?y] =>
          destruct (next_fault_frame y) as (_ & _ & _ & _ & Hlog2);
          destruct (next_fault y) as [[f|] w2] end; cbn [fst snd] in *; cbn;
          rewrite Hlog2; cbn; rewrite Hlog; by rewrite ?app_nil_r.
      * match goal with |- context [next_fault ?y] =>
          destruct (next_fault_frame y) as (_ & _ & _ & _ & Hlog2);
          destruct (next_fault y) as [[f|] w2] end; cbn [fst snd] in *; cbn;
          rewrite Hlog2; cbn; rewrite Hlog; by rewrite ?app_nil_r.
  - unfold ExpireInstanceAnalysisChangelog, ExecOrchestrator.
    destruct (next_fault_frame w) as (_ & _ & _ & _ & Hlog).
    destruct (next_fault w) as [[f|] w1]; cbn [fst snd] in *; cbn.
    + by rewrite Hlog.
    + by rewrite Hlog, app_nil_r.
  - unfold ExpireInstanceAnalysisChangelog, ExecOrchestrator.
    destruct (next_fault_frame w) as (_ & _ & _ & Hc & _).
    destruct (next_fault w) as [[f|] w1]; cbn [fst snd] in *; cbn.
    + done.
    + by intros [? ?].
Qed.
